(** * VFTracker: the refresh-and-cache pipeline of [app.py]

    A shallow embedding of [get_stops], [get_bus_data], [update_cache] and of
    the cache readers [get_buses_api] and [get_status], followed by the
    properties of the pipeline.

    Conventions.
    - Python values received from the provider are JSON-like values
      ([pyval]); the operations the code applies to them ([len], iteration,
      subscripting, truth value, [==], [str], [float]) are modelled with the
      exceptions they raise.
    - Every effect (provider request, clock reading, log record, sleep) is
      recorded in a trace, most recent first.  The provider is a function of
      the trace so far and of the request: it may answer differently each
      time and it may raise.
    - Exceptions are those derived from [Exception], the ones the
      [except Exception] clauses of the code catch. *)

From Stdlib Require Import List String Ascii ZArith QArith Bool Lia.
Import ListNotations.
Open Scope string_scope.
Open Scope Z_scope.

Set Implicit Arguments.
Set Warnings "-register-all".

(** ** Python values *)

(** A Python float: a finite value is modelled by the rational it denotes
    (rounding is not modelled); [nan] and the infinities are kept apart. *)
Inductive pyfloat : Type :=
| FNan
| FInf (negative : bool)
| FFin (q : Q).

Inductive pyval : Type :=
| PNone
| PBool (b : bool)
| PInt (z : Z)
| PFloat (f : pyfloat)
| PStr (s : string)
| PList (l : list pyval)
| PDict (d : list (string * pyval)).

(** Exceptions derived from [Exception]. [ProviderError] stands for anything
    the provider library raises (network error, response that does not
    parse). *)
Inductive exn : Type :=
| TypeError
| KeyError
| IndexError
| ValueError
| OverflowError
| AttributeError
| ProviderError (msg : string).

Inductive result (A : Type) : Type :=
| Ok (a : A)
| Raise (e : exn).
Arguments Ok {A} a.
Arguments Raise {A} e.

(** *** Dictionaries: association lists in insertion order *)

Fixpoint dict_get {A : Type} (k : string) (d : list (string * A)) : option A :=
  match d with
  | [] => None
  | (k', v) :: d' => if String.eqb k k' then Some v else dict_get k d'
  end.

(** [d[k] = v]: an existing key keeps its place, a new key goes last. *)
Fixpoint dict_set {A : Type} (k : string) (v : A) (d : list (string * A))
  : list (string * A) :=
  match d with
  | [] => [(k, v)]
  | (k', v') :: d' =>
      if String.eqb k k' then (k, v) :: d' else (k', v') :: dict_set k v d'
  end.

(** *** Built-in operations *)

Definition float_eqb (a b : pyfloat) : bool :=
  match a, b with
  | FFin p, FFin q => Qeq_bool p q
  | FInf s, FInf t => Bool.eqb s t
  | _, _ => false
  end.

(** The numeric value of [bool], [int] and [float] objects, which [==]
    compares across the three types. *)
Definition as_number (v : pyval) : option pyfloat :=
  match v with
  | PBool b => Some (FFin (inject_Z (if b then 1 else 0)))
  | PInt z => Some (FFin (inject_Z z))
  | PFloat f => Some f
  | _ => None
  end.

(** [v == w] *)
Fixpoint py_eq (v w : pyval) {struct v} : bool :=
  match v, w with
  | PNone, PNone => true
  | PStr s, PStr t => String.eqb s t
  | PList l, PList m =>
      (fix all2 (l m : list pyval) : bool :=
         match l, m with
         | [], [] => true
         | x :: l', y :: m' => py_eq x y && all2 l' m'
         | _, _ => false
         end) l m
  | PDict d, PDict e =>
      Nat.eqb (List.length d) (List.length e) &&
      (fix sub (d : list (string * pyval)) : bool :=
         match d with
         | [] => true
         | (k, x) :: d' =>
             match dict_get k e with
             | Some y => py_eq x y
             | None => false
             end && sub d'
         end) d
  | _, _ =>
      match as_number v, as_number w with
      | Some a, Some b => float_eqb a b
      | _, _ => false
      end
  end.

(** Truth value of [v], as [if v] and [v and ...] test it. *)
Definition py_truthy (v : pyval) : bool :=
  match v with
  | PNone => false
  | PBool b => b
  | PInt z => negb (z =? 0)
  | PFloat (FFin q) => negb (Qeq_bool q 0)
  | PFloat _ => true
  | PStr s => negb (String.eqb s "")
  | PList l => match l with [] => false | _ => true end
  | PDict d => match d with [] => false | _ => true end
  end.

(** [len(v)] *)
Definition py_len (v : pyval) : result Z :=
  match v with
  | PStr s => Ok (Z.of_nat (String.length s))
  | PList l => Ok (Z.of_nat (List.length l))
  | PDict d => Ok (Z.of_nat (List.length d))
  | _ => Raise TypeError
  end.

(** The characters of a text, each as a text of length one. *)
Definition chars (s : string) : list pyval :=
  map (fun c => PStr (String c EmptyString)) (list_ascii_of_string s).

(** The items [for x in v] goes through. *)
Definition py_iter (v : pyval) : result (list pyval) :=
  match v with
  | PList l => Ok l
  | PDict d => Ok (map (fun kv => PStr (fst kv)) d)
  | PStr s => Ok (chars s)
  | _ => Raise TypeError
  end.

(** [v[k]] for a text key [k]. *)
Definition getitem_key (v : pyval) (k : string) : result pyval :=
  match v with
  | PDict d =>
      match dict_get k d with
      | Some x => Ok x
      | None => Raise KeyError
      end
  | _ => Raise TypeError
  end.

Definition nth_item {A : Type} (l : list A) (i : Z) : result A :=
  let n := Z.of_nat (List.length l) in
  let j := if i <? 0 then i + n else i in
  if (j <? 0) || (n <=? j) then Raise IndexError
  else match nth_error l (Z.to_nat j) with
       | Some x => Ok x
       | None => Raise IndexError
       end.

(** [v[i]] for an integer [i]; a dictionary has text keys only. *)
Definition getitem_index (v : pyval) (i : Z) : result pyval :=
  match v with
  | PList l => nth_item l i
  | PStr s => nth_item (chars s) i
  | PDict _ => Raise KeyError
  | _ => Raise TypeError
  end.

(** [v[k] = x], returning the updated object. *)
Definition setitem_key (v : pyval) (k : string) (x : pyval) : result pyval :=
  match v with
  | PDict d => Ok (PDict (dict_set k x d))
  | _ => Raise TypeError
  end.

(** [v.copy()]: values are immutable here, so the copy is the value. *)
Definition py_copy (v : pyval) : result pyval :=
  match v with
  | PDict _ | PList _ => Ok v
  | _ => Raise AttributeError
  end.

(** The parts of [str] and [float] that are Python's own: the printed form
    of a value that is not a text, and the reading of a number out of a text
    or an integer ([None] where Python raises). *)
Record Builtins : Type := {
  py_repr : pyval -> string;
  float_of_string : string -> option pyfloat;
  float_of_int : Z -> option pyfloat
}.

(** [str(v)] *)
Definition py_str (B : Builtins) (v : pyval) : string :=
  match v with
  | PStr s => s
  | _ => py_repr B v
  end.

(** [float(v)] *)
Definition py_float (B : Builtins) (v : pyval) : result pyfloat :=
  match v with
  | PFloat f => Ok f
  | PBool b => Ok (FFin (inject_Z (if b then 1 else 0)))
  | PInt z =>
      match float_of_int B z with
      | Some f => Ok f
      | None => Raise OverflowError
      end
  | PStr s =>
      match float_of_string B s with
      | Some f => Ok f
      | None => Raise ValueError
      end
  | _ => Raise TypeError
  end.

(** [int(q)] for a finite float: truncation towards zero. *)
Definition py_int (q : Q) : Z := Z.quot (Qnum q) (Z.pos (Qden q)).

(** ** Effects *)

(** What the code asks of the provider library:
    [oasa.get('getClosestStops', lat, lng)], [Stop(code).arrivals()],
    [oasa.get('webRoutesForStop', code)] and [Route(code).bus_location()]. *)
Inductive call : Type :=
| GetClosestStops (lat lng : pyval)
| GetStopArrivals (stopcode : string)
| WebRoutesForStop (stopcode : string)
| GetBusLocation (route_code : string).

Inductive outcome : Type :=
| Returns (v : pyval)
| Raises (e : exn).

Inductive level : Type := INFO | ERROR.

(** The log records of the pipeline, with the values each one prints. *)
Inductive message : Type :=
| MsgNotInitialized
| MsgFetchingStops (lat lng : pyval)
| MsgFoundStops (n : Z)
| MsgErrorFetchingStops (e : exn)
| MsgNoArrivals (stop_id descr : pyval)
| MsgErrorBusLocation (route_code : pyval) (e : exn)
| MsgErrorArrival (stop_id : pyval) (e : exn)
| MsgErrorStop (stop_id : pyval) (e : exn)
| MsgProcessed (n_buses n_errors : Z)
| MsgUpdatingCache
| MsgCacheUpdated (n_stops n_buses : Z) (duration : Q)
| MsgErrorUpdatingCache (e : exn).

Inductive event : Type :=
| EvCall (c : call)
| EvClock
| EvLog (lv : level) (m : message)
| EvSleep (seconds : Z).

(** The provider answers a request knowing everything that happened before. *)
Definition provider : Type := list event -> call -> outcome.

(** The surroundings of the server: the provider client ([None] when
    [OasaTelematics()] failed at start-up), the clock behind [time.time()],
    the wall clock behind [datetime.now().strftime('%H:%M:%S')], and the time
    the process started. A clock reading is a finite number of seconds. *)
Record World : Type := {
  oasa : option provider;
  time_time : list event -> Q;
  datetime_now : list event -> string;
  server_start_time : Q
}.

(** *** State and exceptions *)

Definition M (S A : Type) : Type := S -> result A * S.

Definition ret {S A : Type} (a : A) : M S A := fun s => (Ok a, s).

Definition bind {S A B : Type} (m : M S A) (k : A -> M S B) : M S B :=
  fun s =>
    match m s with
    | (Ok a, s') => k a s'
    | (Raise e, s') => (Raise e, s')
    end.

Definition lift {S A : Type} (r : result A) : M S A := fun s => (r, s).

(** [try: body  except Exception as e: handler e]. What [body] did to the
    state before it raised stays done. *)
Definition try_except {S A : Type} (body : M S A) (handler : exn -> M S A)
  : M S A :=
  fun s =>
    match body s with
    | (Ok a, s') => (Ok a, s')
    | (Raise e, s') => handler e s'
    end.

Declare Scope monad_scope.
Delimit Scope monad_scope with monad.
Notation "x <- m ;; k" := (bind m (fun x => k))
  (at level 61, m at next level, right associativity) : monad_scope.
Notation "m ;; k" := (bind m (fun _ => k))
  (at level 61, right associativity) : monad_scope.
Open Scope monad_scope.

(** [for x in l: body x] *)
Fixpoint for_each {S X : Type} (l : list X) (body : X -> M S unit) : M S unit :=
  match l with
  | [] => ret tt
  | x :: l' => body x ;; for_each l' body
  end.

(** A state that carries the trace of effects. *)
Class Traced (S : Type) : Type := {
  trace_of : S -> list event;
  with_trace : list event -> S -> S;
  trace_of_with_trace : forall tr s, trace_of (with_trace tr s) = tr
}.

#[export] Instance Traced_trace : Traced (list event) := {
  trace_of := fun tr => tr;
  with_trace := fun tr _ => tr;
  trace_of_with_trace := fun _ _ => eq_refl
}.

Section Effects.
Context {S : Type} `{Traced S}.

Definition emit (e : event) : M S unit :=
  fun s => (Ok tt, with_trace (e :: trace_of s) s).

Definition logger_info (m : message) : M S unit := emit (EvLog INFO m).
Definition logger_error (m : message) : M S unit := emit (EvLog ERROR m).

Definition request (p : provider) (c : call) : M S pyval :=
  fun s =>
    let tr := trace_of s in
    let s' := with_trace (EvCall c :: tr) s in
    match p tr c with
    | Returns v => (Ok v, s')
    | Raises e => (Raise e, s')
    end.

(** [time.time()] *)
Definition clock (W : World) : M S Q :=
  fun s =>
    let tr := trace_of s in
    (Ok (time_time W tr), with_trace (EvClock :: tr) s).

(** [datetime.now().strftime('%H:%M:%S')] *)
Definition strftime_now (W : World) : M S string :=
  fun s =>
    let tr := trace_of s in
    (Ok (datetime_now W tr), with_trace (EvClock :: tr) s).

(** [time.sleep(seconds)] *)
Definition sleep (seconds : Z) : M S unit := emit (EvSleep seconds).
End Effects.

(** ** The cache *)

Record Stats : Type := {
  total_updates : Z;
  successful_updates : Z;
  failed_updates : Z;
  uptime : Z
}.

Record Cache : Type := {
  stops : pyval;
  buses : list pyval;
  last_update : Q;
  stats : Stats
}.

(** The module-level [cache] as the file creates it. *)
Definition cache_init : Cache := {|
  stops := PList [];
  buses := [];
  last_update := 0%Q;
  stats := {| total_updates := 0; successful_updates := 0;
              failed_updates := 0; uptime := 0 |}
|}.

Definition CACHE_DURATION : Z := 20.

Definition DEFAULT_LOCATION_lat : pyval :=
  PFloat (FFin (3803700447552456 # 100000000000000)).
Definition DEFAULT_LOCATION_lng : pyval :=
  PFloat (FFin (2371519323560343 # 100000000000000)).

(** The single assignments [update_cache] makes to the cache. *)
Definition set_stops (v : pyval) (c : Cache) : Cache :=
  {| stops := v; buses := buses c; last_update := last_update c;
     stats := stats c |}.
Definition set_buses (l : list pyval) (c : Cache) : Cache :=
  {| stops := stops c; buses := l; last_update := last_update c;
     stats := stats c |}.
Definition set_last_update (t : Q) (c : Cache) : Cache :=
  {| stops := stops c; buses := buses c; last_update := t;
     stats := stats c |}.
Definition set_stats (st : Stats) (c : Cache) : Cache :=
  {| stops := stops c; buses := buses c; last_update := last_update c;
     stats := st |}.

Definition incr_total (c : Cache) : Cache :=
  let st := stats c in
  set_stats {| total_updates := total_updates st + 1;
               successful_updates := successful_updates st;
               failed_updates := failed_updates st;
               uptime := uptime st |} c.
Definition incr_successful (c : Cache) : Cache :=
  let st := stats c in
  set_stats {| total_updates := total_updates st;
               successful_updates := successful_updates st + 1;
               failed_updates := failed_updates st;
               uptime := uptime st |} c.
Definition incr_failed (c : Cache) : Cache :=
  let st := stats c in
  set_stats {| total_updates := total_updates st;
               successful_updates := successful_updates st;
               failed_updates := failed_updates st + 1;
               uptime := uptime st |} c.
Definition set_uptime (u : Z) (c : Cache) : Cache :=
  let st := stats c in
  set_stats {| total_updates := total_updates st;
               successful_updates := successful_updates st;
               failed_updates := failed_updates st;
               uptime := u |} c.

(** The state of the server process: the shared cache and the trace. *)
Record machine : Type := {
  cache : Cache;
  trace : list event
}.

#[export] Instance Traced_machine : Traced machine := {
  trace_of := trace;
  with_trace := fun tr m => {| cache := cache m; trace := tr |};
  trace_of_with_trace := fun _ _ => eq_refl
}.

Definition update (f : Cache -> Cache) : M machine unit :=
  fun m => (Ok tt, {| cache := f (cache m); trace := trace m |}).

(** The local variables of [get_bus_data], with the trace. *)
Record join_state : Type := {
  js_trace : list event;
  all_buses : list pyval;
  errors : Z
}.

#[export] Instance Traced_join : Traced join_state := {
  trace_of := js_trace;
  with_trace := fun tr j =>
    {| js_trace := tr; all_buses := all_buses j; errors := errors j |};
  trace_of_with_trace := fun _ _ => eq_refl
}.

(** [all_buses.append(b)] *)
Definition append_bus (b : pyval) : M join_state unit :=
  fun j => (Ok tt, {| js_trace := js_trace j;
                      all_buses := all_buses j ++ [b];
                      errors := errors j |}).

(** [errors += 1] *)
Definition incr_errors : M join_state unit :=
  fun j => (Ok tt, {| js_trace := js_trace j;
                      all_buses := all_buses j;
                      errors := errors j + 1 |}).

(** The objects [Stop(code)] and [Route(code)] of the provider library keep
    the code they were built with. *)
Record StopObj : Type := Stop { stopcode : string }.
Record RouteObj : Type := Route { routecode : string }.

(** ** The pipeline *)

Section Pipeline.
Variable B : Builtins.
Variable W : World.

(** [get_stops(lat, lng)] *)
Definition get_stops {S : Type} `{Traced S} (lat lng : pyval) : M S pyval :=
  match oasa W with
  | None =>
      logger_error MsgNotInitialized ;;
      ret (PList [])
  | Some p =>
      try_except
        (logger_info (MsgFetchingStops lat lng) ;;
         stops <- request p (GetClosestStops lat lng) ;;
         n <- lift (py_len stops) ;;
         logger_info (MsgFoundStops n) ;;
         ret stops)
        (fun e =>
           logger_error (MsgErrorFetchingStops e) ;;
           ret (PList []))
  end.

(** The innermost [try] of [get_bus_data]: the vehicle location of the
    arrival's route, and the sighting appended to [all_buses]. *)
Definition locate_bus (p : provider) (arrival bus_info : pyval)
  : M join_state unit :=
  try_except
    (rc <- lift (getitem_key arrival "route_code") ;;
     let route := Route (py_str B rc) in
     bus_location <- request p (GetBusLocation (routecode route)) ;;
     nonempty <- (if py_truthy bus_location
                  then n <- lift (py_len bus_location) ;; ret (0 <? n)
                  else ret false) ;;
     if (nonempty : bool) then
       first <- lift (getitem_index bus_location 0) ;;
       x <- lift (getitem_key first "CS_LAT") ;;
       lat <- lift (py_float B x) ;;
       bus_info <- lift (setitem_key bus_info "lat" (PFloat lat)) ;;
       first <- lift (getitem_index bus_location 0) ;;
       x <- lift (getitem_key first "CS_LNG") ;;
       lng <- lift (py_float B x) ;;
       bus_info <- lift (setitem_key bus_info "lng" (PFloat lng)) ;;
       first <- lift (getitem_index bus_location 0) ;;
       x <- lift (getitem_key first "VEH_NO") ;;
       bus_info <- lift (setitem_key bus_info "vehicle_id" x) ;;
       now <- strftime_now W ;;
       bus_info <- lift (setitem_key bus_info "last_update" (PStr now)) ;;
       append_bus bus_info
     else ret tt)
    (fun e =>
       rc <- lift (getitem_key arrival "route_code") ;;
       logger_error (MsgErrorBusLocation rc e) ;;
       incr_errors).

(** The body of [for route_info in routes]. *)
Definition process_route (p : provider) (stop_info arrival route_info : pyval)
  : M join_state unit :=
  rc <- lift (getitem_key route_info "RouteCode") ;;
  ac <- lift (getitem_key arrival "route_code") ;;
  if py_eq rc ac then
    bus_info <- lift (py_copy route_info) ;;
    x <- lift (getitem_key arrival "btime2") ;;
    bus_info <- lift (setitem_key bus_info "time_left" x) ;;
    x <- lift (getitem_key stop_info "StopDescr") ;;
    bus_info <- lift (setitem_key bus_info "stop_name" x) ;;
    x <- lift (getitem_key stop_info "StopID") ;;
    bus_info <- lift (setitem_key bus_info "stop_id" x) ;;
    x <- lift (getitem_key arrival "route_code") ;;
    bus_info <- lift (setitem_key bus_info "route_code" x) ;;
    locate_bus p arrival bus_info
  else ret tt.

(** The body of [for arrival in arrivals]. *)
Definition process_arrival (p : provider) (stop_info : pyval) (stop : StopObj)
    (arrival : pyval) : M join_state unit :=
  try_except
    (routes <- request p
                 (WebRoutesForStop (py_str B (PStr (stopcode stop)))) ;;
     items <- lift (py_iter routes) ;;
     for_each items (process_route p stop_info arrival))
    (fun e =>
       sid <- lift (getitem_key stop_info "StopID") ;;
       logger_error (MsgErrorArrival sid e) ;;
       incr_errors).

(** The body of [for stop_info in stops]. *)
Definition process_stop (p : provider) (stop_info : pyval)
  : M join_state unit :=
  try_except
    (sid <- lift (getitem_key stop_info "StopID") ;;
     let stop := Stop (py_str B sid) in
     arrivals <- request p (GetStopArrivals (stopcode stop)) ;;
     match arrivals with
     | PNone =>
         sid <- lift (getitem_key stop_info "StopID") ;;
         descr <- lift (getitem_key stop_info "StopDescr") ;;
         logger_info (MsgNoArrivals sid descr)
     | _ =>
         items <- lift (py_iter arrivals) ;;
         for_each items (process_arrival p stop_info stop)
     end)
    (fun e =>
       sid <- lift (getitem_key stop_info "StopID") ;;
       logger_error (MsgErrorStop sid e) ;;
       incr_errors).

(** The loop of [get_bus_data] over its local variables. *)
Definition join_loop (p : provider) (stops : pyval) : M join_state unit :=
  items <- lift (py_iter stops) ;;
  for_each items (process_stop p).

(** [get_bus_data(stops)] *)
Definition get_bus_data {S : Type} `{Traced S} (stops : pyval)
  : M S (list pyval) :=
  match oasa W with
  | None =>
      logger_error MsgNotInitialized ;;
      ret []
  | Some p =>
      fun s =>
        let j0 := {| js_trace := trace_of s; all_buses := []; errors := 0 |} in
        match join_loop p stops j0 with
        | (Ok _, j) =>
            let n := Z.of_nat (List.length (all_buses j)) in
            (Ok (all_buses j),
             with_trace
               (EvLog INFO (MsgProcessed n (errors j)) :: js_trace j) s)
        | (Raise e, j) => (Raise e, with_trace (js_trace j) s)
        end
  end.

(** One turn of the [while True] loop of [update_cache]. *)
Definition update_cycle : M machine unit :=
  try_except
    (update_start <- clock W ;;
     logger_info MsgUpdatingCache ;;
     update incr_total ;;
     stops <- get_stops DEFAULT_LOCATION_lat DEFAULT_LOCATION_lng ;;
     buses <- get_bus_data stops ;;
     update (set_stops stops) ;;
     update (set_buses buses) ;;
     t <- clock W ;;
     update (set_last_update t) ;;
     update incr_successful ;;
     t <- clock W ;;
     update (set_uptime (py_int (t - server_start_time W))) ;;
     t <- clock W ;;
     let update_duration := (t - update_start)%Q in
     n_stops <- lift (py_len stops) ;;
     let n_buses := Z.of_nat (List.length buses) in
     logger_info (MsgCacheUpdated n_stops n_buses update_duration))
    (fun e =>
       logger_error (MsgErrorUpdatingCache e) ;;
       update incr_failed) ;;
  sleep CACHE_DURATION.

(** [update_cache()], cut after [n] turns of its endless loop. *)
Fixpoint update_cache (n : nat) : M machine unit :=
  match n with
  | O => ret tt
  | S n' => update_cycle ;; update_cache n'
  end.

(** The server as it starts: the initial cache and nothing done yet. *)
Definition machine_init : machine := {| cache := cache_init; trace := [] |}.

(** The state reached after [n] turns. *)
Definition after_cycles (n : nat) (m : machine) : machine :=
  snd (update_cache n m).
End Pipeline.

(** ** Scenario data *)

(** Reading of a plain decimal text: an optional sign, digits, and an
    optional point followed by digits. *)
Definition digit_of (c : ascii) : option Z :=
  let n := Z.of_nat (nat_of_ascii c) in
  if (48 <=? n) && (n <=? 57) then Some (n - 48) else None.

Fixpoint read_digits (s : string) (mant : Z) (scale : positive) (frac : bool)
    (seen : bool) : option Q :=
  match s with
  | EmptyString => if seen then Some (mant # scale) else None
  | String c s' =>
      if Ascii.eqb c "."%char then
        if frac then None else read_digits s' mant scale true seen
      else
        match digit_of c with
        | Some d =>
            read_digits s' (10 * mant + d)
              (if frac then 10 * scale else scale)%positive frac true
        | None => None
        end
  end.

Definition read_decimal (s : string) : option pyfloat :=
  match s with
  | String "-"%char s' =>
      match read_digits s' 0 1 false false with
      | Some q => Some (FFin (- q))
      | None => None
      end
  | _ =>
      match read_digits s 0 1 false false with
      | Some q => Some (FFin q)
      | None => None
      end
  end.

(** An instance of the built-ins, right on the values the scenarios use:
    plain decimal texts for [float], [None] and booleans for [repr]. *)
Definition sample_builtins : Builtins := {|
  py_repr := fun v =>
    match v with
    | PNone => "None"
    | PBool true => "True"
    | PBool false => "False"
    | _ => ""
    end;
  float_of_string := read_decimal;
  float_of_int := fun z => Some (FFin (inject_Z z))
|}.

Definition stop_101 : pyval :=
  PDict [("StopID", PStr "101"); ("StopDescr", PStr "Main St")].
Definition arrival_A10 : pyval :=
  PDict [("route_code", PStr "A10"); ("btime2", PStr "5")].
Definition route_A10 (extra : list (string * pyval)) : pyval :=
  PDict (("RouteCode", PStr "A10") :: extra).
Definition position_V1 : pyval :=
  PDict [("CS_LAT", PStr "38.01"); ("CS_LNG", PStr "23.70");
         ("VEH_NO", PStr "V1")].

(** A provider that answers every request the same way each time. *)
Definition fixed_provider (closest arrivals routes location : outcome)
  : provider :=
  fun _ c =>
    match c with
    | GetClosestStops _ _ => closest
    | GetStopArrivals _ => arrivals
    | WebRoutesForStop _ => routes
    | GetBusLocation _ => location
    end.

Definition fixed_world (o : option provider) : World := {|
  oasa := o;
  time_time := fun tr => inject_Z (Z.of_nat (List.length tr));
  datetime_now := fun _ => "12:00:00";
  server_start_time := 0%Q
|}.

(** One stop, one arrival, one route, one vehicle. *)
Definition world_one_bus : World :=
  fixed_world (Some (fixed_provider
    (Returns (PList [stop_101]))
    (Returns (PList [arrival_A10]))
    (Returns (PList [route_A10 [("RouteDescr", PStr "Centre")]]))
    (Returns (PList [position_V1])))).

(** ** One refresh cycle, seen from outside *)

(** The state in which a cycle calls [get_stops]: the clock was read, the
    start was logged and [total_updates] was incremented. *)
Definition cycle_entry (m : machine) : machine := {|
  cache := incr_total (cache m);
  trace := EvLog INFO MsgUpdatingCache :: EvClock :: trace m
|}.

(** Discovery followed by the join, as [update_cache] runs them. *)
Definition pipeline (B : Builtins) (W : World) : M machine (pyval * list pyval) :=
  stops <- get_stops W DEFAULT_LOCATION_lat DEFAULT_LOCATION_lng ;;
  buses <- get_bus_data B W stops ;;
  ret (stops, buses).

(** The counters add up. *)
Definition stats_consistent (c : Cache) : Prop :=
  successful_updates (stats c) + failed_updates (stats c)
  = total_updates (stats c).

(** The request [get_stops] sends fails: there is no client, the call raises,
    or what it returns has no length. *)
Definition discovery_fails (W : World) (lat lng : pyval) (tr : list event)
  : Prop :=
  match oasa W with
  | None => True
  | Some p =>
      match p (EvLog INFO (MsgFetchingStops lat lng) :: tr)
              (GetClosestStops lat lng) with
      | Raises _ => True
      | Returns v => exists e, py_len v = Raise e
      end
  end.

(** The assignments of a successful cycle, in the order the code makes
    them. *)
Definition publish (new_stops : pyval) (new_buses : list pyval) (t : Q)
    (u : Z) (c : Cache) : Cache :=
  set_uptime u
    (incr_successful
       (set_last_update t (set_buses new_buses (set_stops new_stops c)))).

(** ** Further scenarios *)

(** The discovery request fails on the provider side. *)
Definition world_discovery_down : World :=
  fixed_world (Some (fixed_provider
    (Raises (ProviderError "connection refused"))
    (Returns (PList [arrival_A10]))
    (Returns (PList [route_A10 []]))
    (Returns (PList [position_V1])))).

(** Discovery returns a stop record that has no [StopID]. *)
Definition world_bad_stop : World :=
  fixed_world (Some (fixed_provider
    (Returns (PList [PDict [("StopDescr", PStr "Main St")]]))
    (Returns (PList [arrival_A10]))
    (Returns (PList [route_A10 []]))
    (Returns (PList [position_V1])))).


(** The route listing of the stop holds the route code twice. *)
Definition world_duplicate_route : World :=
  fixed_world (Some (fixed_provider
    (Returns (PList [stop_101]))
    (Returns (PList [arrival_A10]))
    (Returns (PList [route_A10 [("LineID", PStr "1")];
                     route_A10 [("LineID", PStr "2")]]))
    (Returns (PList [position_V1])))).

(** No provider client: [OasaTelematics()] failed at start-up. *)
Definition world_uninitialized : World := fixed_world None.

(** A server that completed one cycle in [world_one_bus]: its cache holds
    one stop and one sighting. *)
Definition machine_served : machine :=
  after_cycles sample_builtins world_one_bus 1 machine_init.

(** ** Reading the join *)

(** The route record carries the arrival's route code: the test of
    [process_route]. *)
Definition route_matches (arrival route_info : pyval) : bool :=
  match getitem_key route_info "RouteCode", getitem_key arrival "route_code" with
  | Ok rc, Ok ac => py_eq rc ac
  | _, _ => false
  end.

Definition count_matching (arrival : pyval) (routes : list pyval) : nat :=
  List.length (filter (route_matches arrival) routes).

(** The route records the arrival is compared with: the answer to
    [webRoutesForStop] in state [j], nothing if the request fails. *)
Definition route_listing (p : provider) (stop : StopObj) (j : join_state)
  : list pyval :=
  match p (js_trace j) (WebRoutesForStop (stopcode stop)) with
  | Returns routes =>
      match py_iter routes with
      | Ok items => items
      | Raise _ => []
      end
  | Raises _ => []
  end.

(** The sighting [b] carries the position of the first entry of a non-empty
    answer to the vehicle-location request for the arrival's route. *)
Definition sighting_from_first (B : Builtins) (p : provider)
    (arrival b : pyval) : Prop :=
  exists h rc location first n x_lat x_lng lat lng vid,
    getitem_key arrival "route_code" = Ok rc /\
    p h (GetBusLocation (py_str B rc)) = Returns location /\
    py_len location = Ok n /\ 0 < n /\
    getitem_index location 0 = Ok first /\
    getitem_key first "CS_LAT" = Ok x_lat /\ py_float B x_lat = Ok lat /\
    getitem_key first "CS_LNG" = Ok x_lng /\ py_float B x_lng = Ok lng /\
    getitem_key first "VEH_NO" = Ok vid /\
    getitem_key b "lat" = Ok (PFloat lat) /\
    getitem_key b "lng" = Ok (PFloat lng) /\
    getitem_key b "vehicle_id" = Ok vid.

(** State [j'] differs from [j] by sightings appended to [all_buses]: no
    more of them than [routes] has records matching the arrival, each built
    from the first position entry. *)
Definition appends (B : Builtins) (p : provider) (arrival : pyval)
    (routes : list pyval) (j j' : join_state) : Prop :=
  exists emitted,
    all_buses j' = (all_buses j ++ emitted)%list /\
    (List.length emitted <= count_matching arrival routes)%nat /\
    Forall (sighting_from_first B p arrival) emitted.

(** Two stops with two arrivals each; the vehicle location of route "A10"
    cannot be fetched, that of route "B20" can. *)
Definition stop_102 : pyval :=
  PDict [("StopID", PStr "102"); ("StopDescr", PStr "Side St")].
Definition arrival_B20 : pyval :=
  PDict [("route_code", PStr "B20"); ("btime2", PStr "9")].
Definition route_B20 : pyval := PDict [("RouteCode", PStr "B20")].
Definition position_V2 : pyval :=
  PDict [("CS_LAT", PStr "38.02"); ("CS_LNG", PStr "23.71");
         ("VEH_NO", PStr "V2")].

Definition provider_A10_down : provider :=
  fun _ c =>
    match c with
    | GetClosestStops _ _ => Returns (PList [stop_101; stop_102])
    | GetStopArrivals _ => Returns (PList [arrival_A10; arrival_B20])
    | WebRoutesForStop _ => Returns (PList [route_A10 []; route_B20])
    | GetBusLocation rc =>
        if String.eqb rc "A10" then Raises (ProviderError "timeout")
        else Returns (PList [position_V2])
    end.

Definition world_A10_down : World := fixed_world (Some provider_A10_down).

(** The local variables of [get_bus_data] as the function sets them. *)
Definition join_start (tr : list event) : join_state :=
  {| js_trace := tr; all_buses := []; errors := 0 |}.

(** ** The cache under concurrent readers

    [update_cache] runs in its own thread and the request handlers run in
    others; the code takes no lock.  A thread switch can fall between any two
    statements, so the publication of a cycle is a sequence of separate
    assignments and a handler is a sequence of separate reads, the last of
    them made while its answer is serialised. *)

Inductive write : Type :=
| WStops (v : pyval)
| WBuses (l : list pyval)
| WLastUpdate (t : Q)
| WSuccessful
| WUptime (u : Z).

Definition apply_write (w : write) (c : Cache) : Cache :=
  match w with
  | WStops v => set_stops v c
  | WBuses l => set_buses l c
  | WLastUpdate t => set_last_update t c
  | WSuccessful => incr_successful c
  | WUptime u => set_uptime u c
  end.

(** The assignments of a successful cycle, one by one. *)
Definition publish_writes (new_stops : pyval) (new_buses : list pyval)
    (t : Q) (u : Z) : list write :=
  [WStops new_stops; WBuses new_buses; WLastUpdate t; WSuccessful; WUptime u].

(** What a handler reads of the cache.  [cache['stops']], [cache['buses']]
    and [cache['last_update']] give the object bound at the time of the read;
    [update_cache] rebinds these keys and never changes the objects.
    [cache['stats']] is different: it puts the live dictionary itself into
    the answer, [update_cache] changes its entries in place, and the entries
    are read only when [jsonify] serialises the answer, after the other
    reads.  So the reading of each counter is a step of its own, made at
    serialisation time. *)
Inductive read : Type :=
| RStops
| RBuses
| RLastUpdate
| RTotalUpdates
| RSuccessfulUpdates
| RFailedUpdates
| RUptime.

Inductive seen : Type :=
| SeenStops (v : pyval)
| SeenBuses (l : list pyval)
| SeenLastUpdate (t : Q)
| SeenTotalUpdates (z : Z)
| SeenSuccessfulUpdates (z : Z)
| SeenFailedUpdates (z : Z)
| SeenUptime (z : Z).

Definition apply_read (r : read) (c : Cache) : seen :=
  match r with
  | RStops => SeenStops (stops c)
  | RBuses => SeenBuses (buses c)
  | RLastUpdate => SeenLastUpdate (last_update c)
  | RTotalUpdates => SeenTotalUpdates (total_updates (stats c))
  | RSuccessfulUpdates => SeenSuccessfulUpdates (successful_updates (stats c))
  | RFailedUpdates => SeenFailedUpdates (failed_updates (stats c))
  | RUptime => SeenUptime (uptime (stats c))
  end.

(** The steps of each handler, in the order it makes them; for
    [get_status] the four counters come last, read from the live [stats]
    dictionary when the answer is serialised (whether the encoder reads
    them in this order, or all in one step, depends on the encoder; the
    properties below are stated for every list of reads). *)
Definition get_stops_api : list read := [RStops].
Definition get_buses_api : list read := [RBuses; RLastUpdate].
Definition get_status : list read :=
  [RLastUpdate; RStops; RBuses;
   RTotalUpdates; RSuccessfulUpdates; RFailedUpdates; RUptime].

Inductive thread : Type := Writer | Reader.

Record config : Type := {
  shared : Cache;
  to_write : list write;
  to_read : list read;
  observed : list seen
}.

(** One step of the chosen thread; [None] if it has nothing left to do. *)
Definition step (t : thread) (k : config) : option config :=
  match t with
  | Writer =>
      match to_write k with
      | w :: ws =>
          Some {| shared := apply_write w (shared k); to_write := ws;
                  to_read := to_read k; observed := observed k |}
      | [] => None
      end
  | Reader =>
      match to_read k with
      | r :: rs =>
          Some {| shared := shared k; to_write := to_write k; to_read := rs;
                  observed := (observed k ++ [apply_read r (shared k)])%list |}
      | [] => None
      end
  end.

Fixpoint run (schedule : list thread) (k : config) : option config :=
  match schedule with
  | [] => Some k
  | t :: schedule' =>
      match step t k with
      | Some k' => run schedule' k'
      | None => None
      end
  end.

(** A handler starts while a publication is about to be made. *)
Definition racing (c : Cache) (ws : list write) (rs : list read) : config :=
  {| shared := c; to_write := ws; to_read := rs; observed := [] |}.

Definition finished (k : config) : Prop := to_write k = [] /\ to_read k = [].

Fixpoint seen_stops (obs : list seen) : option pyval :=
  match obs with
  | [] => None
  | SeenStops v :: _ => Some v
  | _ :: obs' => seen_stops obs'
  end.

Fixpoint seen_buses (obs : list seen) : option (list pyval) :=
  match obs with
  | [] => None
  | SeenBuses l :: _ => Some l
  | _ :: obs' => seen_buses obs'
  end.

Fixpoint seen_successful (obs : list seen) : option Z :=
  match obs with
  | [] => None
  | SeenSuccessfulUpdates z :: _ => Some z
  | _ :: obs' => seen_successful obs'
  end.

Fixpoint seen_uptime (obs : list seen) : option Z :=
  match obs with
  | [] => None
  | SeenUptime z :: _ => Some z
  | _ :: obs' => seen_uptime obs'
  end.

(** The stops and the buses a handler saw belong to one snapshot, the one
    before the publication or the one after it. *)
Definition same_cycle (old new : Cache) (obs : list seen) : Prop :=
  forall s b,
    seen_stops obs = Some s -> seen_buses obs = Some b ->
    (s = stops old /\ b = buses old) \/ (s = stops new /\ b = buses new).

(** The pair of stops and buses in the cache is the initial one or the
    result of one run of the pipeline. *)
Definition from_one_cycle (B : Builtins) (W : World) (c : Cache) : Prop :=
  (stops c = PList [] /\ buses c = []) \/
  exists m, fst (pipeline B W (cycle_entry m)) = Ok (stops c, buses c).

(** The handler does all its steps, the serialisation of its answer
    included, before the publication starts or after it has ended. *)
Definition apart (ws : list write) (rs : list read) (schedule : list thread)
  : Prop :=
  schedule = (repeat Reader (List.length rs)
              ++ repeat Writer (List.length ws))%list \/
  schedule = (repeat Writer (List.length ws)
              ++ repeat Reader (List.length rs))%list.

(** The sighting the join returns in [world_one_bus]. *)
Definition bus_A10 : pyval :=
  PDict [("RouteCode", PStr "A10"); ("RouteDescr", PStr "Centre");
         ("time_left", PStr "5");
         ("stop_name", PStr "Main St"); ("stop_id", PStr "101");
         ("route_code", PStr "A10"); ("lat", PFloat (FFin 38.01%Q));
         ("lng", PFloat (FFin 23.70%Q)); ("vehicle_id", PStr "V1");
         ("last_update", PStr "12:00:00")].

(** The copy of a route record with the arrival's time and route code and
    the stop's name and id set on it, as [process_route] hands it to
    [locate_bus] when the records have the keys it reads. *)
Definition sighting_base (stop_info arrival route_info : pyval) : pyval :=
  match route_info,
        getitem_key arrival "btime2", getitem_key stop_info "StopDescr",
        getitem_key stop_info "StopID", getitem_key arrival "route_code" with
  | PDict d, Ok btime, Ok descr, Ok sid, Ok rc =>
      PDict (dict_set "route_code" rc
               (dict_set "stop_id" sid
                  (dict_set "stop_name" descr
                     (dict_set "time_left" btime d))))
  | _, _, _, _, _ => route_info
  end.

Definition has_route_code (route_info : pyval) : Prop :=
  exists rc, getitem_key route_info "RouteCode" = Ok rc.

(** The vehicle-location requests among the events. *)
Definition location_requests (evs : list event) : nat :=
  List.length
    (filter (fun ev => match ev with
                       | EvCall (GetBusLocation _) => true
                       | _ => false
                       end) evs).


(** ** Accounting for the join *)

Definition is_error_record (e : event) : bool :=
  match e with
  | EvLog ERROR _ => true
  | _ => false
  end.

Definition is_location_request (e : event) : bool :=
  match e with
  | EvCall (GetBusLocation _) => true
  | _ => false
  end.

Definition count_errors (evs : list event) : nat :=
  List.length (filter is_error_record evs).

Definition count_locations (evs : list event) : nat :=
  List.length (filter is_location_request evs).

(** State [j'] continues state [j]: sightings were only appended, each of
    them satisfying [P]; events were only added; the error count went up by
    the number of error records logged; and there are no more new sightings
    than new vehicle-location requests. *)
Definition grows (P : pyval -> Prop) (j j' : join_state) : Prop :=
  exists emitted evs,
    all_buses j' = (all_buses j ++ emitted)%list /\
    Forall P emitted /\
    js_trace j' = (evs ++ js_trace j)%list /\
    errors j' = errors j + Z.of_nat (count_errors evs) /\
    (List.length emitted <= count_locations evs)%nat.

Definition preserves {A : Type} (P : pyval -> Prop) (m : M join_state A)
  : Prop :=
  forall j, grows P j (snd (m j)).

(** The items of a value that can be iterated, none otherwise. *)
Definition items_of (v : pyval) : list pyval :=
  match py_iter v with
  | Ok items => items
  | Raise _ => []
  end.

Definition has_stop_id (stop_info : pyval) : Prop :=
  exists sid, getitem_key stop_info "StopID" = Ok sid.

(** The keys [get_bus_data] sets on the copy of a route record. *)
Definition added_keys : list string :=
  ["time_left"; "stop_name"; "stop_id"; "route_code"; "lat"; "lng";
   "vehicle_id"; "last_update"].

(** Sighting [b] joins the stop record, the arrival and a route record that
    matches the arrival: it names the stop and the arrival's route and time,
    has floats as coordinates, and keeps the other fields of the route
    record. *)
Definition sighting_of (stop_info arrival b : pyval) : Prop :=
  exists route_info sid descr btime rc lat lng vid now,
    route_matches arrival route_info = true /\
    getitem_key stop_info "StopID" = Ok sid /\
    getitem_key stop_info "StopDescr" = Ok descr /\
    getitem_key arrival "btime2" = Ok btime /\
    getitem_key arrival "route_code" = Ok rc /\
    getitem_key b "stop_id" = Ok sid /\
    getitem_key b "stop_name" = Ok descr /\
    getitem_key b "time_left" = Ok btime /\
    getitem_key b "route_code" = Ok rc /\
    getitem_key b "lat" = Ok (PFloat lat) /\
    getitem_key b "lng" = Ok (PFloat lng) /\
    getitem_key b "vehicle_id" = Ok vid /\
    getitem_key b "last_update" = Ok (PStr now) /\
    (forall k, ~ In k added_keys ->
               getitem_key b k = getitem_key route_info k).

(** The route listing of the stop cannot be used: the request raises, or
    what it returns cannot be iterated. *)
Definition routes_unavailable (p : provider) (stop : StopObj) (j : join_state)
    (e : exn) : Prop :=
  match p (js_trace j) (WebRoutesForStop (stopcode stop)) with
  | Raises e' => e' = e
  | Returns routes => py_iter routes = Raise e
  end.

(** [float(first['CS_LAT'])], the first thing read from a position entry. *)
Definition latitude_of (B : Builtins) (first : pyval) : result pyfloat :=
  match getitem_key first "CS_LAT" with
  | Ok x => py_float B x
  | Raise e => Raise e
  end.

(** ** The request handlers

    A handler answers with a JSON body and a status code.  The handlers that
    read the cache take the cache as they find it; [get_route_details] asks
    the provider itself; [get_settings] reads and writes [settings.json]. *)

Record response : Type := {
  status : Z;
  body : pyval
}.

(** [return jsonify(v)] and [return jsonify(v), code] *)
Definition jsonify (v : pyval) : response := {| status := 200; body := v |}.
Definition jsonify_code (v : pyval) (code : Z) : response :=
  {| status := code; body := v |}.

(** The requests of [get_route_details]: [Route(code).get_route_detail()]
    and [Route(code).bus_location()]. *)
Inductive api_call : Type :=
| ApiRouteDetail (route_code : string)
| ApiBusLocation (route_code : string).

(** The error records of the handlers. *)
Inductive api_message : Type :=
| ApiErrorRouteDetails (route_code : string) (e : exn)
| ApiErrorStops (e : exn)
| ApiErrorBuses (e : exn)
| ApiErrorStatus (e : exn)
| ApiErrorSettings (e : exn).

Inductive api_event : Type :=
| ApiCall (c : api_call)
| ApiLog (m : api_message).

Definition api_provider : Type := list api_event -> api_call -> outcome.

(** [settings.json] as [get_settings] finds it: a file that opens and
    parses to a JSON value, or one on which [open] or [json.load] raises. *)
Inductive file : Type :=
| FileJson (v : pyval)
| FileBroken (e : exn).

(** What happens when [get_settings] writes the file: it is written, or
    [open] or [json.dump] raises and leaves nothing or something behind. *)
Inductive disk : Type :=
| WriteOk
| WriteFails (e : exn) (remains : option file).

(** What the handlers act on besides the cache: [settings.json] ([None] if
    it does not exist) and the trace of their requests and error records. *)
Record app_state : Type := {
  settings_file : option file;
  api_trace : list api_event
}.

Definition api_log (m : api_message) : M app_state unit :=
  fun st => (Ok tt, {| settings_file := settings_file st;
                       api_trace := ApiLog m :: api_trace st |}).

Definition api_request (p : api_provider) (c : api_call) : M app_state pyval :=
  fun st =>
    let st' := {| settings_file := settings_file st;
                  api_trace := ApiCall c :: api_trace st |} in
    match p (api_trace st) c with
    | Returns v => (Ok v, st')
    | Raises e => (Raise e, st')
    end.

(** [json.load(f)] on the opened file. *)
Definition json_load (f : file) : result pyval :=
  match f with
  | FileJson v => Ok v
  | FileBroken e => Raise e
  end.

(** [with open('settings.json', 'w') as f: json.dump(v, f, indent=4)] *)
Definition write_settings (d : disk) (v : pyval) : M app_state unit :=
  fun st =>
    match d with
    | WriteOk =>
        (Ok tt, {| settings_file := Some (FileJson v);
                   api_trace := api_trace st |})
    | WriteFails e remains =>
        (Raise e, {| settings_file := remains; api_trace := api_trace st |})
    end.

(** The settings the code writes and falls back to. *)
Definition default_settings : pyval :=
  PDict [("updateInterval", PInt CACHE_DURATION);
         ("darkMode", PBool true);
         ("soundEnabled", PBool true);
         ("alertThreshold", PInt 3);
         ("mapStyle", PStr "standard")].

(** [cache['stats']] as a JSON object. *)
Definition stats_json (s : Stats) : pyval :=
  PDict [("total_updates", PInt (total_updates s));
         ("successful_updates", PInt (successful_updates s));
         ("failed_updates", PInt (failed_updates s));
         ("uptime", PInt (uptime s))].

Module Api.

(** [get_route_details(route_code)] *)
Definition get_route_details (client : option api_provider)
    (route_code : string) : M app_state response :=
  try_except
    (match client with
     | None =>
         ret (jsonify_code
                (PDict [("error", PStr "OASA API not initialized")]) 500)
     | Some p =>
         let route := Route route_code in
         route_stops <- api_request p (ApiRouteDetail (routecode route)) ;;
         bus_location <- api_request p (ApiBusLocation (routecode route)) ;;
         ret (jsonify (PDict [("route_code", PStr route_code);
                              ("route_stops", route_stops);
                              ("bus_location", bus_location)]))
     end)
    (fun e =>
       api_log (ApiErrorRouteDetails route_code e) ;;
       ret (jsonify_code
              (PDict [("error", PStr "Failed to retrieve route details")])
              500)).

(** [get_stops_api()] *)
Definition get_stops_api (c : Cache) : M app_state response :=
  try_except
    (ret (jsonify (stops c)))
    (fun e =>
       api_log (ApiErrorStops e) ;;
       ret (jsonify_code
              (PDict [("error", PStr "Failed to retrieve stops data")]) 500)).

(** [get_buses_api()] *)
Definition get_buses_api (c : Cache) : M app_state response :=
  try_except
    (ret (jsonify (PDict [("buses", PList (buses c));
                          ("last_update", PFloat (FFin (last_update c)))])))
    (fun e =>
       api_log (ApiErrorBuses e) ;;
       ret (jsonify_code
              (PDict [("error", PStr "Failed to retrieve bus data")]) 500)).

(** [get_status()]; [server_time] is
    [datetime.now().strftime('%Y-%m-%d %H:%M:%S')]. *)
Definition get_status (c : Cache) (server_time : string) : M app_state response :=
  try_except
    (n_stops <- lift (py_len (stops c)) ;;
     let n_buses := Z.of_nat (List.length (buses c)) in
     ret (jsonify (PDict [("status", PStr "online");
                          ("last_update", PFloat (FFin (last_update c)));
                          ("stops_count", PInt n_stops);
                          ("buses_count", PInt n_buses);
                          ("stats", stats_json (stats c));
                          ("server_time", PStr server_time)])))
    (fun e =>
       api_log (ApiErrorStatus e) ;;
       ret (jsonify_code
              (PDict [("error", PStr "Failed to retrieve status data")]) 500)).

(** [get_settings()] *)
Definition get_settings (d : disk) : M app_state response :=
  try_except
    (fun st =>
       match settings_file st with
       | Some f =>
           (settings <- lift (json_load f) ;;
            ret (jsonify settings)) st
       | None =>
           (write_settings d default_settings ;;
            ret (jsonify default_settings)) st
       end)
    (fun e =>
       api_log (ApiErrorSettings e) ;;
       ret (jsonify default_settings)).

End Api.

(** A provider for [get_route_details] that answers every request the same
    way each time. *)
Definition fixed_api_provider (detail location : outcome) : api_provider :=
  fun _ c =>
    match c with
    | ApiRouteDetail _ => detail
    | ApiBusLocation _ => location
    end.

(** The handlers' surroundings at start: no settings file, nothing done. *)
Definition app_init : app_state := {| settings_file := None; api_trace := [] |}.

(** What a handler saw of a field is the value before the publication or
    the value the publication assigns. *)
Definition old_or_new (c : Cache) (new_stops : pyval)
    (new_buses : list pyval) (t : Q) (o : seen) : Prop :=
  match o with
  | SeenStops v => v = stops c \/ v = new_stops
  | SeenBuses l => l = buses c \/ l = new_buses
  | SeenLastUpdate x => x = last_update c \/ x = t
  | _ => True
  end.

(** An assignment of the publication of [new_stops], [new_buses] and [t]. *)
Definition publishes (new_stops : pyval) (new_buses : list pyval) (t : Q)
    (w : write) : Prop :=
  match w with
  | WStops v => v = new_stops
  | WBuses l => l = new_buses
  | WLastUpdate x => x = t
  | WSuccessful | WUptime _ => True
  end.

(** In the middle of a publication: each field of the shared cache holds its
    old or its new value, the handler has seen nothing else, and only
    assignments of this publication are left. *)
Definition between (c : Cache) (new_stops : pyval) (new_buses : list pyval)
    (t : Q) (k : config) : Prop :=
  (stops (shared k) = stops c \/ stops (shared k) = new_stops) /\
  (buses (shared k) = buses c \/ buses (shared k) = new_buses) /\
  (last_update (shared k) = last_update c \/ last_update (shared k) = t) /\
  Forall (old_or_new c new_stops new_buses t) (observed k) /\
  Forall (publishes new_stops new_buses t) (to_write k).

(** * Properties *)

(** ** The monad *)

Lemma bind_ok {S A B : Type} (m : M S A) (k : A -> M S B) s a s' :
  m s = (Ok a, s') -> bind m k s = k a s'.
Proof. intros E. unfold bind. now rewrite E. Qed.

Lemma bind_raise {S A B : Type} (m : M S A) (k : A -> M S B) s e s' :
  m s = (Raise e, s') -> bind m k s = (Raise e, s').
Proof. intros E. unfold bind. now rewrite E. Qed.

(** ** Discovery and join inside a cycle *)

Section CycleFacts.
Variable B : Builtins.
Variable W : World.

(** [get_stops] returns, gives something [len] accepts, and leaves the
    cache alone. *)
Lemma get_stops_machine (lat lng : pyval) (m : machine) :
  exists v tr n,
    get_stops W lat lng m = (Ok v, {| cache := cache m; trace := tr |})
    /\ py_len v = Ok n.
Proof.
  unfold get_stops. destruct (oasa W) as [p|].
  - unfold try_except, bind, logger_info, logger_error, emit, request,
      lift, ret; cbn.
    destruct (p _ _) as [v|e]; cbn.
    + destruct (py_len v) as [n|e] eqn:L; cbn.
      * exists v; eexists; exists n. split; [reflexivity | exact L].
      * exists (PList []); eexists; exists 0. split; reflexivity.
    + exists (PList []); eexists; exists 0. split; reflexivity.
  - unfold bind, logger_error, emit, ret; cbn.
    exists (PList []); eexists; exists 0. split; reflexivity.
Qed.

Lemma get_bus_data_machine (stops : pyval) (m : machine) :
  exists r tr,
    get_bus_data B W stops m = (r, {| cache := cache m; trace := tr |}).
Proof.
  unfold get_bus_data. destruct (oasa W) as [p|].
  - cbv beta.
    match goal with |- context [join_loop B W p stops ?j0] =>
      destruct (join_loop B W p stops j0) as [[u|e] j] end; cbn; eauto.
  - unfold bind, logger_error, emit, ret; cbn. eauto.
Qed.

(** The pipeline leaves the cache alone, and the stops it returns have a
    length. *)
Lemma pipeline_machine (m : machine) :
  exists r tr,
    pipeline B W m = (r, {| cache := cache m; trace := tr |})
    /\ (forall stops buses, r = Ok (stops, buses) ->
        exists n, py_len stops = Ok n).
Proof.
  unfold pipeline.
  destruct (get_stops_machine DEFAULT_LOCATION_lat DEFAULT_LOCATION_lng m)
    as (v & tr & n & E & L).
  rewrite (bind_ok _ _ _ E).
  destruct (get_bus_data_machine v {| cache := cache m; trace := tr |})
    as (r & tr' & E'). cbn in E'.
  destruct r as [buses|e].
  - rewrite (bind_ok _ _ _ E'). unfold ret. do 2 eexists. split; [reflexivity|].
    intros ? ? [= <- _]. eauto.
  - rewrite (bind_raise _ _ _ E'). do 2 eexists. split; [reflexivity|].
    discriminate.
Qed.

(** What a cycle does, by the outcome of its pipeline. *)
Lemma update_cycle_run (m : machine) :
  match pipeline B W (cycle_entry m) with
  | (Ok (new_stops, new_buses), m3) =>
      exists n,
        py_len new_stops = Ok n /\
        update_cycle B W m =
        (Ok tt,
         {| cache :=
              publish new_stops new_buses (time_time W (trace m3))
                (py_int (time_time W (EvClock :: trace m3)
                         - server_start_time W))
                (cache m3);
            trace :=
              EvSleep CACHE_DURATION
              :: EvLog INFO
                   (MsgCacheUpdated n (Z.of_nat (List.length new_buses))
                      (time_time W (EvClock :: EvClock :: trace m3)
                       - time_time W (trace m)))
              :: EvClock :: EvClock :: EvClock :: trace m3 |})
  | (Raise e, m3) =>
      update_cycle B W m =
      (Ok tt,
       {| cache := incr_failed (cache m3);
          trace := EvSleep CACHE_DURATION
                   :: EvLog ERROR (MsgErrorUpdatingCache e) :: trace m3 |})
  end.
Proof.
  unfold pipeline, update_cycle.
  destruct (get_stops_machine DEFAULT_LOCATION_lat DEFAULT_LOCATION_lng
              (cycle_entry m)) as (v & tr & n & E & L).
  rewrite (bind_ok _ _ _ E).
  destruct (get_bus_data_machine v
              {| cache := cache (cycle_entry m); trace := tr |})
    as (r & tr' & E'). cbn [cache trace] in E'.
  unfold cycle_entry in *. cbn [cache trace] in *.
  unfold try_except, bind, clock, logger_info, emit, update, sleep.
  cbn [trace_of with_trace Traced_machine cache trace fst snd].
  rewrite E, E'. destruct r as [new_buses|e]; cbn.
  - exists n. split; [exact L|]. unfold lift. rewrite L. reflexivity.
  - reflexivity.
Qed.
End CycleFacts.

(** ** The refresh cycle *)

Section Cycle.
Variable B : Builtins.
Variable W : World.

(** A cycle returns normally; it adds one to [total_updates] and one to
    exactly one of the other two counters. *)
Lemma cycle_counters (m : machine) :
  exists m',
    update_cycle B W m = (Ok tt, m') /\
    total_updates (stats (cache m')) = total_updates (stats (cache m)) + 1 /\
    ((successful_updates (stats (cache m'))
      = successful_updates (stats (cache m)) + 1 /\
      failed_updates (stats (cache m')) = failed_updates (stats (cache m)))
     \/
     (successful_updates (stats (cache m'))
      = successful_updates (stats (cache m)) /\
      failed_updates (stats (cache m'))
      = failed_updates (stats (cache m)) + 1)).
Proof.
  pose proof (update_cycle_run B W m) as R.
  destruct (pipeline_machine B W (cycle_entry m)) as (r & tr & E & _).
  rewrite E in R. destruct r as [[new_stops new_buses]|e].
  - destruct R as (n & _ & R). eexists. split; [exact R|].
    cbn. split; [reflexivity|]. left. split; reflexivity.
  - eexists. split; [exact R|].
    cbn. split; [reflexivity|]. right. split; reflexivity.
Qed.

Lemma cycle_keeps_consistency (m : machine) :
  stats_consistent (cache m) ->
  stats_consistent (cache (snd (update_cycle B W m))).
Proof.
  unfold stats_consistent. intros I.
  destruct (cycle_counters m) as (m' & E & T & C). rewrite E. cbn [snd].
  lia.
Qed.

(** The loop never stops on an exception, so [n] turns are [n] cycles. *)
Lemma update_cache_step (n : nat) (m : machine) :
  update_cache B W (S n) m
  = update_cache B W n (snd (update_cycle B W m)).
Proof.
  destruct (cycle_counters m) as (m' & E & _).
  cbn [update_cache]. rewrite (bind_ok _ _ _ E), E. reflexivity.
Qed.

Lemma update_cache_consistent (n : nat) :
  forall m,
    stats_consistent (cache m) ->
    fst (update_cache B W n m) = Ok tt /\
    stats_consistent (cache (after_cycles B W n m)).
Proof.
  unfold after_cycles.
  induction n as [|n IH]; intros m I.
  - cbn. split; [reflexivity | exact I].
  - rewrite update_cache_step. apply IH, cycle_keeps_consistency, I.
Qed.
End Cycle.

(** C2. After any number of completed refresh cycles the counters satisfy
    [successful_updates + failed_updates = total_updates]; the loop reaches
    every cycle (no cycle raises), and each cycle adds one to
    [total_updates] and one to exactly one of [successful_updates] and
    [failed_updates]. *)
Theorem stats_add_up (B : Builtins) (W : World) :
  (forall n : nat,
     fst (update_cache B W n machine_init) = Ok tt /\
     stats_consistent (cache (after_cycles B W n machine_init)))
  /\
  (forall m : machine,
     fst (update_cycle B W m) = Ok tt /\
     total_updates (stats (cache (snd (update_cycle B W m))))
     = total_updates (stats (cache m)) + 1 /\
     ((successful_updates (stats (cache (snd (update_cycle B W m))))
       = successful_updates (stats (cache m)) + 1 /\
       failed_updates (stats (cache (snd (update_cycle B W m))))
       = failed_updates (stats (cache m)))
      \/
      (successful_updates (stats (cache (snd (update_cycle B W m))))
       = successful_updates (stats (cache m)) /\
       failed_updates (stats (cache (snd (update_cycle B W m))))
       = failed_updates (stats (cache m)) + 1))).
Proof.
  split.
  - intros n. apply update_cache_consistent. reflexivity.
  - intros m. destruct (cycle_counters B W m) as (m' & E & T & C).
    rewrite E. cbn [fst snd]. auto.
Qed.

(** C6. If discovery followed by the join raises during a refresh cycle, the
    cycle still returns normally, the cache's stops, buses and last_update
    are what they were before the cycle, and [failed_updates] is one more. *)
Theorem failed_cycle_keeps_snapshot (B : Builtins) (W : World) (m : machine)
    (e : exn) :
  fst (pipeline B W (cycle_entry m)) = Raise e ->
  fst (update_cycle B W m) = Ok tt /\
  stops (cache (snd (update_cycle B W m))) = stops (cache m) /\
  buses (cache (snd (update_cycle B W m))) = buses (cache m) /\
  last_update (cache (snd (update_cycle B W m))) = last_update (cache m) /\
  failed_updates (stats (cache (snd (update_cycle B W m))))
  = failed_updates (stats (cache m)) + 1.
Proof.
  intros P.
  pose proof (update_cycle_run B W m) as R.
  destruct (pipeline_machine B W (cycle_entry m)) as (r & tr & E & _).
  rewrite E in R, P. cbn [fst] in P. subst r.
  rewrite R. cbn. repeat split; reflexivity.
Qed.

Lemma failed_cycle_keeps_snapshot_witness :
  fst (pipeline sample_builtins world_bad_stop (cycle_entry machine_served))
  = Raise KeyError /\
  stops (cache (snd (update_cycle sample_builtins world_bad_stop
                       machine_served)))
  = PList [stop_101] /\
  failed_updates (stats (cache (snd (update_cycle sample_builtins
                                       world_bad_stop machine_served))))
  = 1.
Proof.
  pose proof (failed_cycle_keeps_snapshot sample_builtins world_bad_stop
                machine_served (e := KeyError) eq_refl) as (_ & S1 & _ & _ & F).
  split; [reflexivity|]. split.
  - rewrite S1. reflexivity.
  - rewrite F. reflexivity.
Defined.

(** ** Discovery *)

Section Discovery.
Variable B : Builtins.
Variable W : World.
Context {S : Type} `{Traced S}.

(** Whatever the provider does, [get_stops] returns normally. *)
Lemma get_stops_returns (lat lng : pyval) (s : S) :
  exists v s', get_stops W lat lng s = (Ok v, s').
Proof.
  unfold get_stops. destruct (oasa W) as [p|].
  - unfold try_except, bind, logger_info, logger_error, emit, request,
      lift, ret.
    destruct (p _ _) as [v|e].
    + destruct (py_len v) as [n|e]; eauto.
    + eauto.
  - unfold bind, logger_error, emit, ret. eauto.
Qed.

Lemma get_stops_on_failure (lat lng : pyval) (s : S) :
  discovery_fails W lat lng (trace_of s) ->
  exists s', get_stops W lat lng s = (Ok (PList []), s').
Proof.
  unfold discovery_fails, get_stops. destruct (oasa W) as [p|].
  - unfold try_except, bind, logger_info, logger_error, emit, request,
      lift, ret.
    rewrite trace_of_with_trace.
    destruct (p _ _) as [v|e].
    + intros [e L]. rewrite L. eauto.
    + eauto.
  - unfold bind, logger_error, emit, ret. eauto.
Qed.

Lemma get_bus_data_empty (s : S) :
  exists s', get_bus_data B W (PList []) s = (Ok [], s').
Proof.
  unfold get_bus_data. destruct (oasa W) as [p|].
  - cbn. eauto.
  - unfold bind, logger_error, emit, ret. eauto.
Qed.
End Discovery.

(** With no stops discovered, the pipeline of a cycle returns no stops and no
    sightings. *)
Lemma pipeline_empty (B : Builtins) (W : World) (m : machine) :
  fst (get_stops W DEFAULT_LOCATION_lat DEFAULT_LOCATION_lng m)
  = Ok (PList []) ->
  exists m3, pipeline B W m = (Ok (PList [], []), m3) /\ cache m3 = cache m.
Proof.
  intros G. unfold pipeline.
  destruct (get_stops_machine W DEFAULT_LOCATION_lat DEFAULT_LOCATION_lng m)
    as (v & tr & n & E & _).
  rewrite E in G. cbn [fst] in G. injection G as ->.
  rewrite (bind_ok _ _ _ E).
  destruct (get_bus_data_machine B W (PList [])
              {| cache := cache m; trace := tr |}) as (r & tr' & E').
  destruct (get_bus_data_empty B W {| cache := cache m; trace := tr |})
    as (s' & E''). rewrite E'' in E'. injection E' as <- ->.
  rewrite (bind_ok _ _ _ E''). unfold ret. eexists. split; reflexivity.
Qed.

(** A cycle whose discovery gives no stops publishes an empty snapshot and
    counts as successful. *)
Lemma empty_cycle (B : Builtins) (W : World) (m : machine) :
  fst (get_stops W DEFAULT_LOCATION_lat DEFAULT_LOCATION_lng (cycle_entry m))
  = Ok (PList []) ->
  fst (update_cycle B W m) = Ok tt /\
  stops (cache (snd (update_cycle B W m))) = PList [] /\
  buses (cache (snd (update_cycle B W m))) = [] /\
  (exists tr, last_update (cache (snd (update_cycle B W m))) = time_time W tr) /\
  successful_updates (stats (cache (snd (update_cycle B W m))))
  = successful_updates (stats (cache m)) + 1 /\
  failed_updates (stats (cache (snd (update_cycle B W m))))
  = failed_updates (stats (cache m)).
Proof.
  intros G. destruct (pipeline_empty B W _ G) as (m3 & P & C).
  pose proof (update_cycle_run B W m) as R. rewrite P in R.
  destruct R as (n & _ & R). rewrite R. cbn. rewrite C. cbn.
  repeat split; try reflexivity. eexists. reflexivity.
Qed.

(** C8. For every location and every state, when the provider call of
    discovery fails (there is no client, the call raises, or the response
    has no length), [get_stops] returns normally and returns the empty
    list. *)
Theorem get_stops_failure_is_empty (W : World) (S : Type) (T : Traced S)
    (lat lng : pyval) (s : S) :
  discovery_fails W lat lng (trace_of s) ->
  exists s', get_stops W lat lng s = (Ok (PList []), s').
Proof. apply get_stops_on_failure. Qed.

Lemma get_stops_failure_is_empty_witness :
  discovery_fails world_discovery_down DEFAULT_LOCATION_lat
    DEFAULT_LOCATION_lng (trace_of ([] : list event)) /\
  exists s' : list event,
    get_stops world_discovery_down DEFAULT_LOCATION_lat DEFAULT_LOCATION_lng
      ([] : list event) = (Ok (PList []), s').
Proof.
  split; [exact I|].
  apply (@get_stops_failure_is_empty world_discovery_down (list event) _
           DEFAULT_LOCATION_lat DEFAULT_LOCATION_lng []).
  exact I.
Defined.

(** C9. The join of an empty list of stops is an empty list of sightings,
    and a refresh cycle whose discovery returns the empty list returns
    normally, adds one to [successful_updates] and leaves [failed_updates]
    as it was. *)
Theorem empty_discovery_is_success (B : Builtins) (W : World) (m : machine) :
  fst (get_stops W DEFAULT_LOCATION_lat DEFAULT_LOCATION_lng (cycle_entry m))
  = Ok (PList []) ->
  (exists m', get_bus_data B W (PList [])
                (snd (get_stops W DEFAULT_LOCATION_lat DEFAULT_LOCATION_lng
                        (cycle_entry m))) = (Ok [], m')) /\
  fst (update_cycle B W m) = Ok tt /\
  successful_updates (stats (cache (snd (update_cycle B W m))))
  = successful_updates (stats (cache m)) + 1 /\
  failed_updates (stats (cache (snd (update_cycle B W m))))
  = failed_updates (stats (cache m)).
Proof.
  intros G. split.
  - apply get_bus_data_empty.
  - destruct (empty_cycle B W m G) as (R & _ & _ & _ & S1 & F). auto.
Qed.

Lemma empty_discovery_is_success_witness :
  fst (get_stops world_discovery_down DEFAULT_LOCATION_lat
         DEFAULT_LOCATION_lng (cycle_entry machine_init))
  = Ok (PList []) /\
  successful_updates
    (stats (cache (snd (update_cycle sample_builtins world_discovery_down
                          machine_init)))) = 1.
Proof.
  split; [reflexivity|].
  destruct (@empty_discovery_is_success sample_builtins world_discovery_down
              machine_init eq_refl) as (_ & _ & S1 & _).
  rewrite S1. reflexivity.
Defined.

(** C10. For every list of stops, when there is no provider client
    ([oasa] is [None]) [get_bus_data] returns the empty list without
    raising; the only effect is the error record in the log: no provider
    request is made and no stop is looked at. *)
Theorem get_bus_data_uninitialized (B : Builtins) (W : World) (S : Type)
    (T : Traced S) (stops : pyval) (s : S) :
  oasa W = None ->
  get_bus_data B W stops s
  = (Ok [], with_trace (EvLog ERROR MsgNotInitialized :: trace_of s) s).
Proof.
  intros N. unfold get_bus_data. rewrite N. reflexivity.
Qed.

Lemma get_bus_data_uninitialized_witness :
  oasa world_uninitialized = None /\
  get_bus_data sample_builtins world_uninitialized (PList [stop_101])
    ([] : list event)
  = (Ok [], [EvLog ERROR MsgNotInitialized]).
Proof.
  split; [reflexivity|].
  exact (@get_bus_data_uninitialized sample_builtins world_uninitialized
           (list event) _ (PList [stop_101]) [] eq_refl).
Defined.

(** C7 as the specification states it fails: with a snapshot of one stop
    and one sighting in the cache, a cycle whose discovery request fails
    leaves [failed_updates] at its value and replaces the stops. *)
Lemma discovery_failure_counterexample :
  discovery_fails world_discovery_down DEFAULT_LOCATION_lat
    DEFAULT_LOCATION_lng (trace (cycle_entry machine_served)) /\
  failed_updates
    (stats (cache (snd (update_cycle sample_builtins world_discovery_down
                          machine_served))))
  <> failed_updates (stats (cache machine_served)) + 1 /\
  stops (cache (snd (update_cycle sample_builtins world_discovery_down
                       machine_served)))
  <> stops (cache machine_served).
Proof.
  split; [exact I|]. split.
  - vm_compute. discriminate.
  - vm_compute. discriminate.
Qed.

(** C7, amended. When the discovery request of a refresh cycle fails on the
    provider side, [get_stops] absorbs the failure and returns the empty
    list, so the cycle returns normally and counts as successful:
    [successful_updates] is one more, [failed_updates] is unchanged, and the
    snapshot is replaced by no stops, no sightings and a new clock reading
    as [last_update]. *)
Theorem discovery_failure_publishes_empty (B : Builtins) (W : World)
    (m : machine) :
  discovery_fails W DEFAULT_LOCATION_lat DEFAULT_LOCATION_lng
    (trace (cycle_entry m)) ->
  fst (update_cycle B W m) = Ok tt /\
  stops (cache (snd (update_cycle B W m))) = PList [] /\
  buses (cache (snd (update_cycle B W m))) = [] /\
  (exists tr, last_update (cache (snd (update_cycle B W m))) = time_time W tr) /\
  successful_updates (stats (cache (snd (update_cycle B W m))))
  = successful_updates (stats (cache m)) + 1 /\
  failed_updates (stats (cache (snd (update_cycle B W m))))
  = failed_updates (stats (cache m)).
Proof.
  intros F. apply empty_cycle.
  change (trace (cycle_entry m)) with (trace_of (cycle_entry m)) in F.
  destruct (get_stops_on_failure W DEFAULT_LOCATION_lat DEFAULT_LOCATION_lng
              (cycle_entry m) F) as (s' & E).
  rewrite E. reflexivity.
Qed.

Lemma discovery_failure_publishes_empty_witness :
  discovery_fails world_discovery_down DEFAULT_LOCATION_lat
    DEFAULT_LOCATION_lng (trace (cycle_entry machine_served)) /\
  stops (cache (snd (update_cycle sample_builtins world_discovery_down
                       machine_served))) = PList [] /\
  successful_updates
    (stats (cache (snd (update_cycle sample_builtins world_discovery_down
                          machine_served)))) = 2.
Proof.
  split; [exact I|].
  destruct (@discovery_failure_publishes_empty sample_builtins
              world_discovery_down machine_served I)
    as (_ & S0 & _ & _ & S1 & _).
  split; [exact S0|]. rewrite S1. reflexivity.
Defined.

(** ** Dictionaries *)

Lemma dict_get_set_same {A : Type} (k : string) (v : A) d :
  dict_get k (dict_set k v d) = Some v.
Proof.
  induction d as [|[k' v'] d IH]; cbn.
  - now rewrite String.eqb_refl.
  - destruct (String.eqb k k') eqn:E; cbn.
    + now rewrite String.eqb_refl.
    + now rewrite E.
Qed.

Lemma dict_get_set_other {A : Type} (k k' : string) (v : A) d :
  String.eqb k k' = false ->
  dict_get k (dict_set k' v d) = dict_get k d.
Proof.
  intros N. induction d as [|[k0 v0] d IH]; cbn.
  - now rewrite N.
  - destruct (String.eqb k' k0) eqn:E; cbn.
    + apply String.eqb_eq in E. subst k0. now rewrite N.
    + destruct (String.eqb k k0); [reflexivity | exact IH].
Qed.

(** ** The join *)

Section Join.
Variable B : Builtins.
Variable W : World.
Variable p : provider.


(** Whatever happens, [locate_bus] appends nothing or one sighting built
    from the first position entry. *)
Lemma locate_bus_outcome (arrival bus_info : pyval) (j : join_state) :
  all_buses (snd (locate_bus B W p arrival bus_info j)) = all_buses j
  \/ exists b,
      all_buses (snd (locate_bus B W p arrival bus_info j))
      = (all_buses j ++ [b])%list
      /\ sighting_from_first B p arrival b.
Proof.
  unfold locate_bus, try_except, bind, lift, request, strftime_now,
    append_bus, incr_errors, logger_error, emit, ret.
  cbn [trace_of with_trace Traced_join js_trace all_buses errors].
  destruct (getitem_key arrival "route_code") as [rc|e0] eqn:R;
    [|left; reflexivity].
  cbn [routecode].
  destruct (p (js_trace j) _) as [loc|e] eqn:C; [|left; reflexivity].
  destruct (py_truthy loc) eqn:T; [|left; reflexivity].
  destruct (py_len loc) as [n|e] eqn:L; [|left; reflexivity].
  destruct (0 <? n) eqn:N; [|left; reflexivity].
  destruct (getitem_index loc 0) as [first|e] eqn:F; [|left; reflexivity].
  destruct (getitem_key first "CS_LAT") as [x_lat|e] eqn:X1;
    [|left; reflexivity].
  destruct (py_float B x_lat) as [lat|e] eqn:F1; [|left; reflexivity].
  destruct bus_info as [| | | | |l|d]; try (left; reflexivity).
  cbn [setitem_key].
  destruct (getitem_key first "CS_LNG") as [x_lng|e] eqn:X2;
    [|left; reflexivity].
  destruct (py_float B x_lng) as [lng|e] eqn:F2; [|left; reflexivity].
  destruct (getitem_key first "VEH_NO") as [vid|e] eqn:X3;
    [|left; reflexivity].
  right. eexists. split; [reflexivity|].
  exists (js_trace j), rc, loc, first, n, x_lat, x_lng, lat, lng, vid.
  apply Z.ltb_lt in N.
  repeat (split; [assumption|]).
  cbn [getitem_key].
  repeat split;
    repeat (rewrite dict_get_set_other by reflexivity);
    rewrite dict_get_set_same; reflexivity.
Qed.

Lemma appends_nothing (arrival : pyval) (routes : list pyval)
    (j j' : join_state) :
  all_buses j' = all_buses j -> appends B p arrival routes j j'.
Proof.
  intros E. exists []. rewrite app_nil_r. repeat split; auto.
  cbn. lia.
Qed.

Lemma appends_trans (arrival r : pyval) (routes : list pyval)
    (j j1 j2 : join_state) :
  appends B p arrival [r] j j1 -> appends B p arrival routes j1 j2 ->
  appends B p arrival (r :: routes) j j2.
Proof.
  intros (e1 & A1 & L1 & F1) (e2 & A2 & L2 & F2).
  exists (e1 ++ e2)%list. rewrite A2, A1, app_assoc. split; [reflexivity|].
  split.
  - rewrite length_app. unfold count_matching in *. cbn in *.
    destruct (route_matches arrival r); cbn in *; lia.
  - apply Forall_app. auto.
Qed.

(** One route record: at most one sighting, and only if it matches. *)
Lemma process_route_outcome (stop_info arrival route_info : pyval)
    (j : join_state) :
  appends B p arrival [route_info] j
    (snd (process_route B W p stop_info arrival route_info j)).
Proof.
  unfold process_route, bind, lift, ret.
  destruct (getitem_key route_info "RouteCode") as [rc|e] eqn:R1;
    [|now apply appends_nothing].
  destruct (getitem_key arrival "route_code") as [ac|e] eqn:R2;
    [|now apply appends_nothing].
  destruct (py_eq rc ac) eqn:R3; [|now apply appends_nothing].
  destruct (py_copy route_info) as [b0|e]; [|now apply appends_nothing].
  destruct (getitem_key arrival "btime2") as [x1|e];
    [|now apply appends_nothing].
  destruct (setitem_key b0 "time_left" x1) as [b1|e];
    [|now apply appends_nothing].
  destruct (getitem_key stop_info "StopDescr") as [x2|e];
    [|now apply appends_nothing].
  destruct (setitem_key b1 "stop_name" x2) as [b2|e];
    [|now apply appends_nothing].
  destruct (getitem_key stop_info "StopID") as [x3|e];
    [|now apply appends_nothing].
  destruct (setitem_key b2 "stop_id" x3) as [b3|e];
    [|now apply appends_nothing].
  destruct (setitem_key b3 "route_code" ac) as [b4|e];
    [|now apply appends_nothing].
  destruct (locate_bus_outcome arrival b4 j) as [E|(b & E & F)].
  - now apply appends_nothing.
  - exists [b]. split; [exact E|]. split; [|auto].
    unfold count_matching, route_matches. cbn [filter].
    rewrite R1, R2, R3. cbn. lia.
Qed.

(** The loop over the route listing: no more sightings than matching
    route records, whether or not the loop is cut short by an exception. *)
Lemma routes_loop_outcome (stop_info arrival : pyval) (routes : list pyval) :
  forall j,
    appends B p arrival routes j
      (snd (for_each routes (process_route B W p stop_info arrival) j)).
Proof.
  induction routes as [|r routes IH]; intros j.
  - now apply appends_nothing.
  - cbn [for_each]. unfold bind.
    pose proof (process_route_outcome stop_info arrival r j) as A.
    destruct (process_route B W p stop_info arrival r j) as [[u|e] j1];
      cbn [snd] in *.
    + eapply appends_trans; [exact A | apply IH].
    + eapply appends_trans; [exact A | now apply appends_nothing].
Qed.

Lemma process_arrival_outcome (stop_info : pyval) (stop : StopObj)
    (arrival : pyval) (j : join_state) :
  appends B p arrival (route_listing p stop j) j
    (snd (process_arrival B W p stop_info stop arrival j)).
Proof.
  unfold process_arrival, route_listing, try_except, bind, lift, request,
    logger_error, emit, incr_errors.
  cbn [py_str trace_of with_trace Traced_join js_trace all_buses errors].
  destruct (p (js_trace j) (WebRoutesForStop (stopcode stop)))
    as [routes|e].
  - destruct (py_iter routes) as [items|e].
    + match goal with |- context [for_each items ?f ?j0] =>
        pose proof (routes_loop_outcome stop_info arrival items j0) as A;
        destruct (for_each items f j0) as [[u|e] j1] end;
        cbn [snd] in A.
      * exact A.
      * destruct A as (em & A1 & A2 & A3). exists em.
        destruct (getitem_key stop_info "StopID"); cbn; auto.
    + apply appends_nothing.
      destruct (getitem_key stop_info "StopID"); reflexivity.
  - apply appends_nothing.
    destruct (getitem_key stop_info "StopID"); reflexivity.
Qed.


Lemma process_stop_returns (stop_info sid : pyval) (j : join_state) :
  getitem_key stop_info "StopID" = Ok sid ->
  fst (process_stop B W p stop_info j) = Ok tt.
Proof.
  intros S. unfold process_stop, try_except.
  match goal with |- context [bind ?m ?k j] =>
    destruct (bind m k j) as [[[]|e] j1] end.
  - reflexivity.
  - unfold bind, lift. rewrite S. reflexivity.
Qed.

(** A loop whose current body returns goes on with the rest. *)
Lemma for_each_next {S X : Type} (body : X -> M S unit) (x : X)
    (rest : list X) (s : S) :
  fst (body x s) = Ok tt ->
  for_each (x :: rest) body s = for_each rest body (snd (body x s)).
Proof.
  intros R. cbn [for_each]. unfold bind.
  destruct (body x s) as [[[]|e] s']; cbn in *; [reflexivity|discriminate].
Qed.
End Join.

(** C3. With one stop (id "101", description "Main St"), one arrival for
    it (route code "A10", btime2 "5"), a route listing for the stop with a
    route of code "A10", and the vehicle location for "A10" answering one
    position (CS_LAT "38.01", CS_LNG "23.70", VEH_NO "V1"), the join returns
    exactly one sighting, with route_code "A10", stop_id "101",
    time_left "5", lat 38.01, lng 23.70 and vehicle_id "V1". *)
Theorem one_bus_join (B : Builtins) (W : World) (p : provider)
    (extra : list (string * pyval)) (tr : list event) :
  oasa W = Some p ->
  (forall h, p h (GetStopArrivals "101") = Returns (PList [arrival_A10])) ->
  (forall h, p h (WebRoutesForStop "101")
             = Returns (PList [route_A10 extra])) ->
  (forall h, p h (GetBusLocation "A10") = Returns (PList [position_V1])) ->
  float_of_string B "38.01" = Some (FFin 38.01%Q) ->
  float_of_string B "23.70" = Some (FFin 23.70%Q) ->
  exists b tr',
    get_bus_data B W (PList [stop_101]) tr = (Ok [b], tr') /\
    getitem_key b "route_code" = Ok (PStr "A10") /\
    getitem_key b "stop_id" = Ok (PStr "101") /\
    getitem_key b "time_left" = Ok (PStr "5") /\
    getitem_key b "lat" = Ok (PFloat (FFin 38.01%Q)) /\
    getitem_key b "lng" = Ok (PFloat (FFin 23.70%Q)) /\
    getitem_key b "vehicle_id" = Ok (PStr "V1").
Proof.
  intros O A R L F1 F2.
  unfold get_bus_data. rewrite O. cbv beta.
  cbv beta iota zeta delta -[dict_set float_of_string].
  rewrite A.
  cbv beta iota zeta delta -[dict_set float_of_string].
  rewrite R.
  cbv beta iota zeta delta -[dict_set float_of_string].
  rewrite L.
  cbv beta iota zeta delta -[dict_set float_of_string].
  rewrite F1, F2.
  do 2 eexists. split; [reflexivity|].
  cbn [getitem_key].
  repeat split;
    repeat (rewrite dict_get_set_other by reflexivity);
    rewrite dict_get_set_same; reflexivity.
Qed.

Lemma one_bus_join_witness :
  oasa world_one_bus
  = Some (fixed_provider
            (Returns (PList [stop_101]))
            (Returns (PList [arrival_A10]))
            (Returns (PList [route_A10 [("RouteDescr", PStr "Centre")]]))
            (Returns (PList [position_V1]))) /\
  exists b tr',
    get_bus_data sample_builtins world_one_bus (PList [stop_101])
      ([] : list event) = (Ok [b], tr') /\
    getitem_key b "route_code" = Ok (PStr "A10") /\
    getitem_key b "stop_id" = Ok (PStr "101") /\
    getitem_key b "time_left" = Ok (PStr "5") /\
    getitem_key b "lat" = Ok (PFloat (FFin 38.01%Q)) /\
    getitem_key b "lng" = Ok (PFloat (FFin 23.70%Q)) /\
    getitem_key b "vehicle_id" = Ok (PStr "V1").
Proof.
  split; [reflexivity|].
  eapply (@one_bus_join sample_builtins world_one_bus);
    try reflexivity; intros h; reflexivity.
Defined.

(** C4 as the specification states it fails: when the route listing of the
    stop holds the arrival's route code twice, both route records are used
    and the single arrival yields two sightings. *)
Lemma first_match_counterexample :
  exists b1 b2 tr,
    get_bus_data sample_builtins world_duplicate_route (PList [stop_101])
      ([] : list event) = (Ok [b1; b2], tr) /\
    getitem_key b1 "LineID" = Ok (PStr "1") /\
    getitem_key b2 "LineID" = Ok (PStr "2") /\
    ~ (List.length [b1; b2] <= 1)%nat.
Proof.
  do 3 eexists. split; [vm_compute; reflexivity|].
  split; [reflexivity|]. split; [reflexivity|]. cbn. lia.
Qed.

(** *** Every matching route record is used *)

Section EveryMatch.
Variable B : Builtins.
Variable W : World.
Variable p : provider.

(** With the arrival's route code at hand, [locate_bus] returns normally
    and makes exactly one vehicle-location request. *)
Lemma locate_bus_one_request (arrival rc bus_info : pyval) (j : join_state) :
  getitem_key arrival "route_code" = Ok rc ->
  fst (locate_bus B W p arrival bus_info j) = Ok tt /\
  exists evs,
    js_trace (snd (locate_bus B W p arrival bus_info j))
    = (evs ++ js_trace j)%list /\
    location_requests evs = 1%nat.
Proof.
  intros R.
  unfold locate_bus, try_except, bind, lift, request, strftime_now,
    append_bus, incr_errors, logger_error, emit, ret.
  cbn [trace_of with_trace Traced_join js_trace all_buses errors].
  rewrite R. cbn [routecode].
  assert (Leaf1 : forall (r : result unit) (extra : list event)
                         (bs : list pyval) (n : Z),
            location_requests extra = 0%nat ->
            r = Ok tt ->
            fst (r, {| js_trace := (extra ++ EvCall (GetBusLocation
                                                       (py_str B rc))
                                    :: js_trace j)%list;
                       all_buses := bs; errors := n |}) = Ok tt /\
            exists evs,
              js_trace (snd (r, {| js_trace :=
                                     (extra ++ EvCall (GetBusLocation
                                                         (py_str B rc))
                                      :: js_trace j)%list;
                                   all_buses := bs; errors := n |}))
              = (evs ++ js_trace j)%list /\
              location_requests evs = 1%nat).
  { intros r extra bs n L ->. split; [reflexivity|].
    exists (extra ++ [EvCall (GetBusLocation (py_str B rc))])%list.
    cbn [snd js_trace]. rewrite <- app_assoc. split; [reflexivity|].
    unfold location_requests in *. rewrite filter_app, length_app, L.
    reflexivity. }
  assert (Err : forall e bs n,
            fst (Ok tt : result unit,
                 {| js_trace := EvLog ERROR (MsgErrorBusLocation rc e)
                                :: EvCall (GetBusLocation (py_str B rc))
                                :: js_trace j;
                    all_buses := bs; errors := n |}) = Ok tt /\
            exists evs,
              js_trace (snd (Ok tt : result unit,
                             {| js_trace :=
                                  EvLog ERROR (MsgErrorBusLocation rc e)
                                  :: EvCall (GetBusLocation (py_str B rc))
                                  :: js_trace j;
                                all_buses := bs; errors := n |}))
              = (evs ++ js_trace j)%list /\
              location_requests evs = 1%nat).
  { intros e bs n.
    exact (Leaf1 (Ok tt) [EvLog ERROR (MsgErrorBusLocation rc e)] bs n
             eq_refl eq_refl). }
  assert (Nop :
            fst (Ok tt : result unit,
                 {| js_trace := EvCall (GetBusLocation (py_str B rc))
                                :: js_trace j;
                    all_buses := all_buses j; errors := errors j |}) = Ok tt /\
            exists evs,
              js_trace (snd (Ok tt : result unit,
                             {| js_trace :=
                                  EvCall (GetBusLocation (py_str B rc))
                                  :: js_trace j;
                                all_buses := all_buses j;
                                errors := errors j |}))
              = (evs ++ js_trace j)%list /\
              location_requests evs = 1%nat).
  { exact (Leaf1 (Ok tt) [] (all_buses j) (errors j) eq_refl eq_refl). }
  destruct (p (js_trace j) _) as [loc|e]; [|apply Err].
  destruct (py_truthy loc); [|exact Nop].
  destruct (py_len loc) as [n|e]; [|apply Err].
  destruct (0 <? n); [|exact Nop].
  destruct (getitem_index loc 0) as [first|e]; [|apply Err].
  destruct (getitem_key first "CS_LAT") as [x_lat|e]; [|apply Err].
  destruct (py_float B x_lat) as [lat|e]; [|apply Err].
  destruct bus_info as [| | | | |l|d]; try apply Err.
  cbn [setitem_key].
  destruct (getitem_key first "CS_LNG") as [x_lng|e]; [|apply Err].
  destruct (py_float B x_lng) as [lng|e]; [|apply Err].
  destruct (getitem_key first "VEH_NO") as [vid|e]; [|apply Err].
  exact (Leaf1 (Ok tt) [EvClock] _ _ eq_refl eq_refl).
Qed.

(** Running [locate_bus] on each record of a list: it returns normally and
    makes one vehicle-location request per record. *)
Lemma locate_each_requests (arrival rc : pyval) (base : pyval -> pyval)
    (records : list pyval) :
  getitem_key arrival "route_code" = Ok rc ->
  forall j,
    fst (for_each records
           (fun r => locate_bus B W p arrival (base r)) j) = Ok tt /\
    exists evs,
      js_trace (snd (for_each records
                       (fun r => locate_bus B W p arrival (base r)) j))
      = (evs ++ js_trace j)%list /\
      location_requests evs = List.length records.
Proof.
  intros R. induction records as [|r records IH]; intros j.
  - split; [reflexivity|]. exists []. split; reflexivity.
  - destruct (@locate_bus_one_request arrival rc (base r) j R)
      as (F1 & e1 & T1 & L1).
    rewrite for_each_next by exact F1.
    destruct (IH (snd (locate_bus B W p arrival (base r) j)))
      as (F2 & e2 & T2 & L2).
    split; [exact F2|]. exists (e2 ++ e1)%list.
    rewrite T2, T1, app_assoc. split; [reflexivity|].
    unfold location_requests in *.
    rewrite filter_app, length_app, L1, L2. cbn [List.length]. lia.
Qed.

(** With the keys in place, the loop over the route listing is [locate_bus]
    run once on each matching record, in listing order. *)
Lemma routes_loop_uses_each_match
    (stop_info arrival sid descr rc btime : pyval) (routes : list pyval) :
  getitem_key stop_info "StopID" = Ok sid ->
  getitem_key stop_info "StopDescr" = Ok descr ->
  getitem_key arrival "route_code" = Ok rc ->
  getitem_key arrival "btime2" = Ok btime ->
  Forall has_route_code routes ->
  forall j,
    for_each routes (process_route B W p stop_info arrival) j
    = for_each (filter (route_matches arrival) routes)
        (fun r => locate_bus B W p arrival (sighting_base stop_info arrival r))
        j.
Proof.
  intros S1 S2 A1 A2 F. induction F as [|r routes [c Hc] _ IH]; intros j.
  - reflexivity.
  - cbn [filter for_each]. unfold route_matches at 1. rewrite Hc, A1.
    assert (P : process_route B W p stop_info arrival r j
                = if py_eq c rc
                  then locate_bus B W p arrival
                         (sighting_base stop_info arrival r) j
                  else (Ok tt, j)).
    { unfold process_route, bind, lift, ret. rewrite Hc, A1, A2, S2, S1.
      destruct (py_eq c rc); [|reflexivity].
      unfold sighting_base. rewrite A1, A2, S2, S1.
      destruct r as [| | | | | |d]; try discriminate Hc. reflexivity. }
    unfold bind at 1. rewrite P.
    destruct (py_eq c rc).
    + cbn [for_each]. unfold bind.
      destruct (locate_bus B W p arrival
                  (sighting_base stop_info arrival r) j) as [[u|e] j1].
      * apply IH.
      * reflexivity.
    + apply IH.
Qed.
End EveryMatch.

(** C4, amended. For every arrival processed by the join, the sightings the
    arrival adds to the output are no more than the route listing has
    records with the arrival's route code, and each of them carries the
    position of the first entry of a non-empty vehicle-position list.  There
    is no first-match rule: when the stop and the arrival have the keys the
    code reads and every record of the listing has a RouteCode, the arrival
    is compared with every record in listing order and every matching record
    is used, each with a vehicle-location request of its own; the arrival's
    processing is [locate_bus] run once on each matching record. *)
Theorem every_matching_route_is_used (B : Builtins) (W : World)
    (p : provider) (stop_info : pyval) (stop : StopObj) (arrival : pyval)
    (j : join_state) :
  (exists emitted,
     all_buses (snd (process_arrival B W p stop_info stop arrival j))
     = (all_buses j ++ emitted)%list /\
     (List.length emitted
      <= count_matching arrival (route_listing p stop j))%nat /\
     Forall (sighting_from_first B p arrival) emitted)
  /\
  (forall sid descr rc btime listing routes,
     getitem_key stop_info "StopID" = Ok sid ->
     getitem_key stop_info "StopDescr" = Ok descr ->
     getitem_key arrival "route_code" = Ok rc ->
     getitem_key arrival "btime2" = Ok btime ->
     p (js_trace j) (WebRoutesForStop (stopcode stop)) = Returns listing ->
     py_iter listing = Ok routes ->
     Forall has_route_code routes ->
     process_arrival B W p stop_info stop arrival j
     = for_each (filter (route_matches arrival) routes)
         (fun r => locate_bus B W p arrival
                     (sighting_base stop_info arrival r))
         {| js_trace := EvCall (WebRoutesForStop (stopcode stop))
                        :: js_trace j;
            all_buses := all_buses j;
            errors := errors j |}
     /\
     fst (process_arrival B W p stop_info stop arrival j) = Ok tt /\
     exists evs,
       js_trace (snd (process_arrival B W p stop_info stop arrival j))
       = (evs ++ js_trace j)%list /\
       location_requests evs = count_matching arrival routes).
Proof.
  split; [apply process_arrival_outcome|].
  intros sid descr rc btime listing routes S1 S2 A1 A2 C I F.
  set (j1 := {| js_trace := EvCall (WebRoutesForStop (stopcode stop))
                            :: js_trace j;
                all_buses := all_buses j;
                errors := errors j |}).
  destruct (@locate_each_requests B W p arrival rc
              (sighting_base stop_info arrival)
              (filter (route_matches arrival) routes) A1 j1)
    as (Fok & evs & T & L).
  assert (E : process_arrival B W p stop_info stop arrival j
              = for_each (filter (route_matches arrival) routes)
                  (fun r => locate_bus B W p arrival
                              (sighting_base stop_info arrival r)) j1).
  { unfold process_arrival, try_except, bind at 1, request.
    cbn [py_str trace_of with_trace Traced_join js_trace].
    rewrite C. fold j1. unfold bind at 1, lift. rewrite I.
    rewrite (@routes_loop_uses_each_match B W p stop_info arrival sid descr rc
               btime routes S1 S2 A1 A2 F j1).
    destruct (for_each (filter (route_matches arrival) routes) _ j1)
      as [[[]|e] j2]; [reflexivity | discriminate Fok]. }
  split; [exact E|]. rewrite E. split; [exact Fok|].
  exists (evs ++ [EvCall (WebRoutesForStop (stopcode stop))])%list.
  rewrite T. unfold j1. cbn [js_trace]. rewrite <- app_assoc.
  split; [reflexivity|].
  unfold location_requests in *. rewrite filter_app, length_app, L.
  unfold count_matching. cbn. lia.
Qed.

Lemma every_matching_route_is_used_witness :
  count_matching arrival_A10
    [route_A10 [("LineID", PStr "1")]; route_A10 [("LineID", PStr "2")]]
  = 2%nat /\
  exists evs,
    js_trace
      (snd (process_arrival sample_builtins world_duplicate_route
              (fixed_provider
                 (Returns (PList [stop_101]))
                 (Returns (PList [arrival_A10]))
                 (Returns (PList [route_A10 [("LineID", PStr "1")];
                                  route_A10 [("LineID", PStr "2")]]))
                 (Returns (PList [position_V1])))
              stop_101 (Stop "101") arrival_A10 (join_start [])))
    = (evs ++ [])%list /\
    location_requests evs = 2%nat.
Proof.
  split; [reflexivity|].
  destruct (proj2 (@every_matching_route_is_used sample_builtins
                     world_duplicate_route
                     (fixed_provider
                        (Returns (PList [stop_101]))
                        (Returns (PList [arrival_A10]))
                        (Returns (PList [route_A10 [("LineID", PStr "1")];
                                         route_A10 [("LineID", PStr "2")]]))
                        (Returns (PList [position_V1])))
                     stop_101 (Stop "101") arrival_A10 (join_start []))
              (PStr "101") (PStr "Main St") (PStr "A10") (PStr "5")
              (PList [route_A10 [("LineID", PStr "1")];
                      route_A10 [("LineID", PStr "2")]])
              [route_A10 [("LineID", PStr "1")];
               route_A10 [("LineID", PStr "2")]]
              eq_refl eq_refl eq_refl eq_refl eq_refl eq_refl)
    as (_ & _ & evs & T & L).
  { repeat constructor; eexists; reflexivity. }
  exists evs. split; [exact T | exact L].
Defined.

(** The failing arrivals of two stops are left out and counted; the other
    arrivals of both stops are in the output, in stop order. *)
Example join_isolates_failing_arrivals :
  exists b1 b2 tr,
    get_bus_data sample_builtins world_A10_down (PList [stop_101; stop_102])
      ([] : list event)
    = (Ok [b1; b2], EvLog INFO (MsgProcessed 2 2) :: tr) /\
    getitem_key b1 "route_code" = Ok (PStr "B20") /\
    getitem_key b1 "stop_id" = Ok (PStr "101") /\
    getitem_key b2 "route_code" = Ok (PStr "B20") /\
    getitem_key b2 "stop_id" = Ok (PStr "102").
Proof.
  do 3 eexists. split; [vm_compute; reflexivity|]. repeat split.
Qed.



(** ** Readers and the writer *)

(** Publishing assignment by assignment gives the cache of a successful
    cycle. *)
Lemma publish_by_writes (new_stops : pyval) (new_buses : list pyval) (t : Q)
    (u : Z) (c : Cache) :
  fold_left (fun c w => apply_write w c)
    (publish_writes new_stops new_buses t u) c
  = publish new_stops new_buses t u c.
Proof. reflexivity. Qed.

Lemma run_app (s1 s2 : list thread) :
  forall k,
    run (s1 ++ s2) k
    = match run s1 k with
      | Some k1 => run s2 k1
      | None => None
      end.
Proof.
  induction s1 as [|t s1 IH]; intros k; cbn.
  - reflexivity.
  - destruct (step t k) as [k'|]; [apply IH | reflexivity].
Qed.

Lemma run_reader (rs : list read) :
  forall c ws obs,
    run (repeat Reader (List.length rs))
      {| shared := c; to_write := ws; to_read := rs; observed := obs |}
    = Some {| shared := c; to_write := ws; to_read := [];
              observed := (obs ++ map (fun r => apply_read r c) rs)%list |}.
Proof.
  induction rs as [|r rs IH]; intros c ws obs; cbn.
  - now rewrite app_nil_r.
  - rewrite IH, <- app_assoc. reflexivity.
Qed.

Lemma run_writer (ws : list write) :
  forall c rs obs,
    run (repeat Writer (List.length ws))
      {| shared := c; to_write := ws; to_read := rs; observed := obs |}
    = Some {| shared := fold_left (fun c w => apply_write w c) ws c;
              to_write := []; to_read := rs; observed := obs |}.
Proof.
  induction ws as [|w ws IH]; intros c rs obs; cbn.
  - reflexivity.
  - apply IH.
Qed.

(** ** One cycle behind each snapshot *)

Lemma cycle_keeps_one_cycle (B : Builtins) (W : World) (m : machine) :
  from_one_cycle B W (cache m) ->
  from_one_cycle B W (cache (snd (update_cycle B W m))).
Proof.
  intros I.
  pose proof (update_cycle_run B W m) as R.
  destruct (pipeline_machine B W (cycle_entry m)) as (r & tr & E & _).
  rewrite E in R. destruct r as [[new_stops new_buses]|e].
  - destruct R as (n & _ & R). rewrite R. cbn.
    right. exists m. rewrite E. reflexivity.
  - rewrite R. cbn. exact I.
Qed.

Lemma update_cache_one_cycle (B : Builtins) (W : World) (n : nat) :
  forall m,
    from_one_cycle B W (cache m) ->
    from_one_cycle B W (cache (after_cycles B W n m)).
Proof.
  unfold after_cycles. induction n as [|n IH]; intros m I.
  - exact I.
  - rewrite update_cache_step. apply IH, cycle_keeps_one_cycle, I.
Qed.

(** C1 as the specification states it fails: the publication is not one
    atomic unit.  While the first cycle of [world_one_bus] takes the cache
    from no stops and no buses to one stop and one sighting, [get_status]
    can read the new stops and the old buses, and it can read the old stops
    and the new buses; [get_buses_api] can return the new buses with the old
    [last_update]; and a [get_status] that read stops, buses and
    [last_update] before the publication answers with the counters of after
    it when its answer is serialised later. *)
Lemma torn_read_counterexample :
  let old := cache (cycle_entry machine_init) in
  let ws := publish_writes (PList [stop_101]) [bus_A10] 10%Q 11 in
  let new := fold_left (fun c w => apply_write w c) ws old in
  new = cache (after_cycles sample_builtins world_one_bus 1 machine_init) /\
  (exists k,
     run [Writer; Reader; Reader; Reader; Reader; Reader; Reader; Reader;
          Writer; Writer; Writer; Writer] (racing old ws get_status)
     = Some k /\
     finished k /\
     seen_stops (observed k) = Some (PList [stop_101]) /\
     seen_buses (observed k) = Some [] /\
     ~ same_cycle old new (observed k))
  /\
  (exists k,
     run [Reader; Reader; Writer; Writer; Reader; Reader; Reader; Reader;
          Reader; Writer; Writer; Writer] (racing old ws get_status)
     = Some k /\
     finished k /\
     seen_stops (observed k) = Some (PList []) /\
     seen_buses (observed k) = Some [bus_A10] /\
     ~ same_cycle old new (observed k))
  /\
  (exists k,
     run [Writer; Writer; Reader; Reader; Writer; Writer; Writer]
       (racing old ws get_buses_api) = Some k /\
     finished k /\
     observed k = [SeenBuses [bus_A10]; SeenLastUpdate (last_update old)])
  /\
  (exists k,
     run [Reader; Reader; Reader; Writer; Writer; Writer; Writer; Writer;
          Reader; Reader; Reader; Reader] (racing old ws get_status)
     = Some k /\
     finished k /\
     seen_stops (observed k) = Some (stops old) /\
     seen_buses (observed k) = Some (buses old) /\
     seen_successful (observed k) = Some 1 /\
     seen_uptime (observed k) = Some 11 /\
     successful_updates (stats old) = 0 /\ uptime (stats old) = 0).
Proof.
  cbv zeta. split; [|split; [|split; [|split]]].
  - vm_compute. reflexivity.
  - eexists. split; [vm_compute; reflexivity|].
    split; [split; reflexivity|].
    split; [reflexivity|]. split; [reflexivity|].
    intros S. destruct (S _ _ eq_refl eq_refl) as [[E _]|[_ E]];
      discriminate E.
  - eexists. split; [vm_compute; reflexivity|].
    split; [split; reflexivity|].
    split; [reflexivity|]. split; [reflexivity|].
    intros S. destruct (S _ _ eq_refl eq_refl) as [[_ E]|[E _]];
      discriminate E.
  - eexists. split; [vm_compute; reflexivity|].
    split; [split; reflexivity|].
    reflexivity.
  - eexists. split; [vm_compute; reflexivity|].
    split; [split; reflexivity|].
    repeat split.
Qed.

(** C1, amended. At the end of every refresh cycle the stops and the buses
    in the cache are the result of one and the same run of discovery and
    join (or the initial empty pair).  The publication is a sequence of
    separate assignments made without a lock: a handler that does all its
    steps, the serialisation of its answer included, before the publication
    starts or after it has ended sees only values of the snapshot before it,
    or only values of the snapshot after it; nothing is promised to a
    handler that reads, or serialises the live counters, during or across a
    publication. *)
Theorem snapshot_from_one_cycle (B : Builtins) (W : World) (n : nat)
    (c : Cache) (new_stops : pyval) (new_buses : list pyval) (t : Q) (u : Z)
    (rs : list read) (schedule : list thread) :
  apart (publish_writes new_stops new_buses t u) rs schedule ->
  from_one_cycle B W (cache (after_cycles B W n machine_init)) /\
  exists k,
    run schedule (racing c (publish_writes new_stops new_buses t u) rs)
    = Some k /\
    finished k /\
    shared k = publish new_stops new_buses t u c /\
    (observed k = map (fun r => apply_read r c) rs \/
     observed k
     = map (fun r => apply_read r (publish new_stops new_buses t u c)) rs).
Proof.
  intros A. split.
  - apply update_cache_one_cycle. left. split; reflexivity.
  - unfold racing. destruct A as [-> | ->]; rewrite run_app.
    + rewrite run_reader, run_writer. eexists. split; [reflexivity|].
      split; [split; reflexivity|]. split; [reflexivity|]. left. reflexivity.
    + rewrite run_writer, run_reader. eexists. split; [reflexivity|].
      split; [split; reflexivity|]. split; [reflexivity|]. right. reflexivity.
Qed.

Lemma snapshot_from_one_cycle_witness :
  apart (publish_writes (PList [stop_101]) [bus_A10] 7%Q 7) get_status
    [Writer; Writer; Writer; Writer; Writer; Reader; Reader; Reader; Reader;
     Reader; Reader; Reader]
  /\
  exists k,
    run [Writer; Writer; Writer; Writer; Writer; Reader; Reader; Reader;
         Reader; Reader; Reader; Reader]
      (racing cache_init (publish_writes (PList [stop_101]) [bus_A10] 7%Q 7)
         get_status) = Some k /\
    seen_stops (observed k) = Some (PList [stop_101]) /\
    seen_buses (observed k) = Some [bus_A10] /\
    seen_successful (observed k) = Some 1 /\
    seen_uptime (observed k) = Some 7.
Proof.
  assert (A : apart (publish_writes (PList [stop_101]) [bus_A10] 7%Q 7)
                get_status
                [Writer; Writer; Writer; Writer; Writer; Reader; Reader;
                 Reader; Reader; Reader; Reader; Reader])
    by (right; reflexivity).
  split; [exact A|].
  destruct (@snapshot_from_one_cycle sample_builtins world_one_bus 1
              cache_init (PList [stop_101]) [bus_A10] 7%Q 7 get_status _ A)
    as (_ & k & R & _ & _ & O).
  exists k. split; [exact R|].
  vm_compute in R. injection R as <-. repeat split.
Defined.

(** * Further properties of the join *)

Lemma count_errors_app (e1 e2 : list event) :
  count_errors (e1 ++ e2) = (count_errors e1 + count_errors e2)%nat.
Proof. unfold count_errors. now rewrite filter_app, length_app. Qed.

Lemma count_locations_app (e1 e2 : list event) :
  count_locations (e1 ++ e2) = (count_locations e1 + count_locations e2)%nat.
Proof. unfold count_locations. now rewrite filter_app, length_app. Qed.

Lemma grows_refl (P : pyval -> Prop) (j j' : join_state) :
  all_buses j' = all_buses j -> js_trace j' = js_trace j ->
  errors j' = errors j -> grows P j j'.
Proof.
  intros E1 E2 E3. exists [], []. rewrite app_nil_r. cbn.
  repeat split; auto. lia.
Qed.

Lemma grows_trans (P : pyval -> Prop) (j j1 j2 : join_state) :
  grows P j j1 -> grows P j1 j2 -> grows P j j2.
Proof.
  intros (m1 & e1 & A1 & F1 & T1 & E1 & L1) (m2 & e2 & A2 & F2 & T2 & E2 & L2).
  exists (m1 ++ m2)%list, (e2 ++ e1)%list.
  rewrite A2, A1, T2, T1, E2, E1, !app_assoc.
  rewrite count_errors_app, count_locations_app, length_app.
  repeat split; auto.
  - apply Forall_app. auto.
  - lia.
  - lia.
Qed.

Lemma grows_weaken (P Q : pyval -> Prop) (j j' : join_state) :
  (forall b, P b -> Q b) -> grows P j j' -> grows Q j j'.
Proof.
  intros I (m & e & A & F & T & E & L). exists m, e.
  repeat split; auto. eapply Forall_impl; eauto.
Qed.

(** One event that is not an error record and no sighting. *)
Lemma grows_event (P : pyval -> Prop) (j j' : join_state) (ev : event) :
  is_error_record ev = false ->
  all_buses j' = all_buses j -> js_trace j' = ev :: js_trace j ->
  errors j' = errors j -> grows P j j'.
Proof.
  intros N E1 E2 E3. exists [], [ev]. rewrite app_nil_r.
  unfold count_errors, count_locations. cbn. rewrite N. cbn.
  repeat split; auto; lia.
Qed.

Section Preserves.
Variable P : pyval -> Prop.

Lemma pres_ret {A : Type} (a : A) : preserves P (ret a).
Proof. intros j. now apply grows_refl. Qed.

Lemma pres_lift {A : Type} (r : result A) : preserves P (lift r).
Proof. intros j. now apply grows_refl. Qed.

Lemma pres_bind {A C : Type} (m : M join_state A) (k : A -> M join_state C) :
  preserves P m -> (forall a, preserves P (k a)) -> preserves P (bind m k).
Proof.
  intros Hm Hk j. unfold bind. specialize (Hm j).
  destruct (m j) as [[a|e] j1]; cbn [snd] in *.
  - eapply grows_trans; [exact Hm | apply Hk].
  - exact Hm.
Qed.

Lemma pres_try {A : Type} (body : M join_state A)
    (handler : exn -> M join_state A) :
  preserves P body -> (forall e, preserves P (handler e)) ->
  preserves P (try_except body handler).
Proof.
  intros Hb Hh j. unfold try_except. specialize (Hb j).
  destruct (body j) as [[a|e] j1]; cbn [snd] in *.
  - exact Hb.
  - eapply grows_trans; [exact Hb | apply Hh].
Qed.

Lemma pres_for_each {X : Type} (l : list X) (body : X -> M join_state unit) :
  (forall x, In x l -> preserves P (body x)) -> preserves P (for_each l body).
Proof.
  induction l as [|x l IH]; intros Hb.
  - apply pres_ret.
  - cbn [for_each]. apply pres_bind.
    + apply Hb. now left.
    + intros _. apply IH. intros y Hy. apply Hb. now right.
Qed.

Lemma pres_request (p : provider) (c : call) : preserves P (request p c).
Proof.
  intros j. unfold request. cbn.
  destruct (p (js_trace j) c); cbn; now apply grows_event with (ev := EvCall c).
Qed.

Lemma pres_info (m : message) : preserves P (logger_info m).
Proof. intros j. now apply grows_event with (ev := EvLog INFO m). Qed.

(** An error record and its count go together. *)
Lemma pres_counted_error (m : message) :
  preserves P (logger_error m ;; incr_errors).
Proof.
  intros j. exists [], [EvLog ERROR m]. rewrite app_nil_r. cbn.
  repeat split; auto.
Qed.
End Preserves.

Section JoinAccounting.
Variable B : Builtins.
Variable W : World.
Variable p : provider.

(** The three handlers of the join log one error record and count it. *)
Lemma pres_handler (P : pyval -> Prop) (r : result pyval)
    (msg : pyval -> message) :
  preserves P (x <- lift r ;; logger_error (msg x) ;; incr_errors).
Proof.
  apply pres_bind; [apply pres_lift | intros x; apply pres_counted_error].
Qed.

(** [locate_bus] on a dictionary [d]: whatever sighting it appends is [d]
    with the four position keys set, and it is paid for by the request. *)
Lemma locate_bus_grows (P : pyval -> Prop) (arrival rc : pyval)
    (d : list (string * pyval)) :
  getitem_key arrival "route_code" = Ok rc ->
  (forall lat lng vid now,
     P (PDict (dict_set "last_update" (PStr now)
                 (dict_set "vehicle_id" vid
                    (dict_set "lng" (PFloat lng)
                       (dict_set "lat" (PFloat lat) d)))))) ->
  preserves P (locate_bus B W p arrival (PDict d)).
Proof.
  intros R HP j.
  unfold locate_bus, try_except, bind, lift, request, strftime_now,
    append_bus, incr_errors, logger_error, emit, ret.
  cbn [trace_of with_trace Traced_join js_trace all_buses errors].
  rewrite R. cbn [routecode setitem_key].
  assert (Err : forall e,
    grows P j
      {| js_trace := EvLog ERROR (MsgErrorBusLocation rc e)
                     :: EvCall (GetBusLocation (py_str B rc)) :: js_trace j;
         all_buses := all_buses j;
         errors := errors j + 1 |}).
  { intros e.
    exists [], [EvLog ERROR (MsgErrorBusLocation rc e);
                EvCall (GetBusLocation (py_str B rc))].
    rewrite app_nil_r. cbn. repeat split; auto. }
  assert (Nop :
    grows P j
      {| js_trace := EvCall (GetBusLocation (py_str B rc)) :: js_trace j;
         all_buses := all_buses j;
         errors := errors j |}).
  { now apply grows_event with (ev := EvCall (GetBusLocation (py_str B rc))). }
  destruct (p (js_trace j) _) as [loc|e]; [|apply Err].
  destruct (py_truthy loc); [|exact Nop].
  destruct (py_len loc) as [n|e]; [|apply Err].
  destruct (0 <? n); [|exact Nop].
  destruct (getitem_index loc 0) as [first|e]; [|apply Err].
  destruct (getitem_key first "CS_LAT") as [x_lat|e]; [|apply Err].
  destruct (py_float B x_lat) as [lat|e]; [|apply Err].
  destruct (getitem_key first "CS_LNG") as [x_lng|e]; [|apply Err].
  destruct (py_float B x_lng) as [lng|e]; [|apply Err].
  destruct (getitem_key first "VEH_NO") as [vid|e]; [|apply Err].
  cbn [snd].
  eexists [_], [EvClock; EvCall (GetBusLocation (py_str B rc))].
  cbn. repeat split; auto.
  rewrite Z.add_0_r. reflexivity.
Qed.

Lemma dict_get_set_apart {A : Type} (k k' : string) (v : A) d :
  k <> k' -> dict_get k (dict_set k' v d) = dict_get k d.
Proof. intros N. apply dict_get_set_other. now apply String.eqb_neq. Qed.

(** One route record: the sighting it may add joins the stop, the arrival
    and this record. *)
Lemma process_route_grows (stop_info arrival route_info : pyval) :
  preserves (sighting_of stop_info arrival)
    (process_route B W p stop_info arrival route_info).
Proof.
  intros j. unfold process_route, bind, lift, ret.
  destruct (getitem_key route_info "RouteCode") as [rc|e] eqn:R1;
    [|now apply grows_refl].
  destruct (getitem_key arrival "route_code") as [ac|e] eqn:R2;
    [|now apply grows_refl].
  destruct (py_eq rc ac) eqn:R3; [|now apply grows_refl].
  destruct route_info as [| | | | | |d]; try discriminate R1.
  cbn [py_copy setitem_key].
  destruct (getitem_key arrival "btime2") as [x1|e] eqn:A2;
    [|now apply grows_refl].
  destruct (getitem_key stop_info "StopDescr") as [x2|e] eqn:S2;
    [|now apply grows_refl].
  destruct (getitem_key stop_info "StopID") as [x3|e] eqn:S1;
    [|now apply grows_refl].
  eapply locate_bus_grows; [exact R2|].
  intros lat lng vid now.
  exists (PDict d), x3, x2, x1, ac, lat, lng, vid, now.
  unfold route_matches. rewrite R1, R2, R3.
  repeat (split; [first [reflexivity | assumption
                        | cbn [getitem_key];
                          repeat (rewrite dict_get_set_other by reflexivity);
                          rewrite dict_get_set_same; reflexivity]|]).
  intros k K. cbn [getitem_key].
  unfold added_keys in K. cbn [In] in K.
  rewrite !dict_get_set_apart; [reflexivity | | | | | | | |];
    intros ->; apply K; tauto.
Qed.

Lemma process_arrival_grows (stop_info : pyval) (stop : StopObj)
    (arrival : pyval) :
  preserves (sighting_of stop_info arrival)
    (process_arrival B W p stop_info stop arrival).
Proof.
  unfold process_arrival. apply pres_try.
  - apply pres_bind; [apply pres_request|]. intros routes.
    apply pres_bind; [apply pres_lift|]. intros items.
    apply pres_for_each. intros r _. apply process_route_grows.
  - intros e. apply pres_handler.
Qed.

Lemma process_stop_grows (stop_info : pyval) :
  preserves (fun b => exists arrival, sighting_of stop_info arrival b)
    (process_stop B W p stop_info).
Proof.
  unfold process_stop. apply pres_try.
  - apply pres_bind; [apply pres_lift|]. intros sid.
    apply pres_bind; [apply pres_request|]. intros arrivals.
    assert (L : preserves
                  (fun b => exists arrival, sighting_of stop_info arrival b)
                  (items <- lift (py_iter arrivals) ;;
                   for_each items
                     (process_arrival B W p stop_info
                        (Stop (py_str B sid))))).
    { apply pres_bind; [apply pres_lift|]. intros items.
      apply pres_for_each. intros a _ j.
      eapply grows_weaken; [|apply process_arrival_grows].
      intros b Hb. now exists a. }
    destruct arrivals; try exact L.
    apply pres_bind; [apply pres_lift|]. intros sid'.
    apply pres_bind; [apply pres_lift|]. intros descr.
    apply pres_info.
  - intros e. apply pres_handler.
Qed.

(** Every sighting the loop adds belongs to one of the stops it goes
    through. *)
Lemma join_loop_grows (stops : pyval) :
  preserves
    (fun b => exists stop_info arrival,
                In stop_info (items_of stops) /\
                sighting_of stop_info arrival b)
    (join_loop B W p stops).
Proof.
  unfold join_loop, items_of.
  destruct (py_iter stops) as [items|e].
  - intros j. unfold bind, lift. revert j.
    apply pres_for_each. intros s Hs j.
    eapply grows_weaken; [|apply process_stop_grows].
    intros b (a & Hb). exists s, a. auto.
  - intros j. now apply grows_refl.
Qed.
End JoinAccounting.

(** X1. When [get_bus_data] returns, the summary record it logs last reports
    the number of sightings returned and the number of error records logged
    during the call, and the call made at least one vehicle-location request
    for each sighting it returns. *)
Theorem join_summary_matches_log (B : Builtins) (W : World) (p : provider)
    (stops : pyval) (tr tr' : list event) (buses : list pyval) :
  oasa W = Some p ->
  get_bus_data B W stops tr = (Ok buses, tr') ->
  exists evs,
    tr' = EvLog INFO (MsgProcessed (Z.of_nat (List.length buses))
                        (Z.of_nat (count_errors evs))) :: (evs ++ tr)%list /\
    (List.length buses <= count_locations evs)%nat.
Proof.
  intros O. unfold get_bus_data. rewrite O. cbv beta.
  pose proof (join_loop_grows B W p stops
                {| js_trace := trace_of tr; all_buses := []; errors := 0 |})
    as (em & evs & A & _ & T & E & L).
  destruct (join_loop B W p stops _) as [[u|e] j]; [|discriminate].
  cbn [snd all_buses js_trace errors app trace_of Traced_trace] in *.
  intros [= <- <-]. exists evs. rewrite A, T, E. cbn. split; [reflexivity|].
  exact L.
Qed.

Lemma join_summary_matches_log_witness :
  oasa world_A10_down = Some provider_A10_down /\
  exists buses tr' evs,
    get_bus_data sample_builtins world_A10_down (PList [stop_101; stop_102])
      ([] : list event) = (Ok buses, tr') /\
    tr' = EvLog INFO (MsgProcessed (Z.of_nat (List.length buses))
                        (Z.of_nat (count_errors evs))) :: (evs ++ [])%list /\
    count_errors evs = 2%nat /\ List.length buses = 2%nat.
Proof.
  split; [reflexivity|].
  destruct (get_bus_data sample_builtins world_A10_down
              (PList [stop_101; stop_102]) ([] : list event))
    as [[buses|e] tr'] eqn:G; [|vm_compute in G; discriminate G].
  destruct (@join_summary_matches_log sample_builtins world_A10_down
              provider_A10_down (PList [stop_101; stop_102]) [] tr' buses
              eq_refl G) as (evs & T & _).
  exists buses, tr', evs. split; [reflexivity|]. split; [exact T|].
  vm_compute in G. injection G as <- <-.
  rewrite app_nil_r in T. injection T as C1 C2. subst evs. split; reflexivity.
Defined.



Section JoinEdges.
Variable B : Builtins.
Variable W : World.
Variable p : provider.

Lemma stops_loop_returns (items : list pyval) :
  Forall has_stop_id items ->
  forall j, fst (for_each items (process_stop B W p) j) = Ok tt.
Proof.
  induction 1 as [|s items [sid Hs] _ IH]; intros j.
  - reflexivity.
  - rewrite for_each_next by exact (process_stop_returns B W p s j Hs).
    apply IH.
Qed.

End JoinEdges.

(** X3. If every stop record given to [get_bus_data] has a StopID, the call
    returns normally whatever the provider does: no provider failure and no
    malformed arrival, route or position record escapes the join. *)
Theorem join_returns_when_stops_have_ids (B : Builtins) (W : World)
    (stops : pyval) (items : list pyval) (tr : list event) :
  py_iter stops = Ok items ->
  Forall has_stop_id items ->
  exists buses tr', get_bus_data B W stops tr = (Ok buses, tr').
Proof.
  intros I F. unfold get_bus_data. destruct (oasa W) as [p|].
  - cbv beta.
    pose proof (@stops_loop_returns B W p items F
                  {| js_trace := trace_of tr; all_buses := []; errors := 0 |})
      as R.
    unfold join_loop, bind, lift. rewrite I.
    destruct (for_each items _ _) as [[[]|e] j]; [|discriminate R].
    eauto.
  - unfold bind, logger_error, emit, ret. eauto.
Qed.

Lemma join_returns_when_stops_have_ids_witness :
  py_iter (PList [stop_101; stop_102]) = Ok [stop_101; stop_102] /\
  Forall has_stop_id [stop_101; stop_102] /\
  exists buses tr',
    get_bus_data sample_builtins world_A10_down (PList [stop_101; stop_102])
      ([] : list event) = (Ok buses, tr').
Proof.
  assert (F : Forall has_stop_id [stop_101; stop_102]).
  { repeat constructor; eexists; reflexivity. }
  split; [reflexivity|]. split; [exact F|].
  exact (@join_returns_when_stops_have_ids sample_builtins world_A10_down
           (PList [stop_101; stop_102]) _ [] eq_refl F).
Defined.



(** X5. A stop for which the provider has no arrivals ([None]) is skipped
    after that one request, with no sighting and no error counted, provided
    its record has a StopDescr; without StopDescr the log record of the skip
    cannot be written and the stop is counted as one error. *)
Theorem stop_without_arrivals_is_skipped (B : Builtins) (W : World)
    (p : provider) (stop_info sid : pyval) (j : join_state) :
  getitem_key stop_info "StopID" = Ok sid ->
  p (js_trace j) (GetStopArrivals (py_str B sid)) = Returns PNone ->
  process_stop B W p stop_info j
  = (Ok tt,
     match getitem_key stop_info "StopDescr" with
     | Ok descr =>
         {| js_trace := EvLog INFO (MsgNoArrivals sid descr)
                        :: EvCall (GetStopArrivals (py_str B sid))
                        :: js_trace j;
            all_buses := all_buses j;
            errors := errors j |}
     | Raise e =>
         {| js_trace := EvLog ERROR (MsgErrorStop sid e)
                        :: EvCall (GetStopArrivals (py_str B sid))
                        :: js_trace j;
            all_buses := all_buses j;
            errors := errors j + 1 |}
     end).
Proof.
  intros S A. unfold process_stop, try_except, bind, lift, request.
  rewrite S. cbn [stopcode trace_of with_trace Traced_join js_trace].
  rewrite A. unfold logger_info, logger_error, emit, incr_errors.
  destruct (getitem_key stop_info "StopDescr") as [descr|e]; reflexivity.
Qed.

Lemma stop_without_arrivals_is_skipped_witness :
  process_stop sample_builtins world_one_bus
    (fixed_provider (Returns (PList [stop_101])) (Returns PNone)
       (Returns (PList [])) (Returns (PList [])))
    stop_101 (join_start [])
  = (Ok tt,
     {| js_trace := [EvLog INFO (MsgNoArrivals (PStr "101") (PStr "Main St"));
                     EvCall (GetStopArrivals "101")];
        all_buses := [];
        errors := 0 |}).
Proof.
  exact (@stop_without_arrivals_is_skipped sample_builtins world_one_bus
           (fixed_provider (Returns (PList [stop_101])) (Returns PNone)
              (Returns (PList [])) (Returns (PList [])))
           stop_101 (PStr "101") (join_start []) eq_refl eq_refl).
Defined.

(** X6. A vehicle-location answer that is empty or [None] (any value that
    tests false) is not an error: the route record gives no sighting, the
    error count stays, and the only effect is the request. *)
Theorem empty_position_list_is_no_error (B : Builtins) (W : World)
    (p : provider) (arrival bus_info rc location : pyval) (j : join_state) :
  getitem_key arrival "route_code" = Ok rc ->
  p (js_trace j) (GetBusLocation (py_str B rc)) = Returns location ->
  py_truthy location = false ->
  locate_bus B W p arrival bus_info j
  = (Ok tt,
     {| js_trace := EvCall (GetBusLocation (py_str B rc)) :: js_trace j;
        all_buses := all_buses j;
        errors := errors j |}).
Proof.
  intros R C T. unfold locate_bus, try_except, bind, lift, request, ret.
  rewrite R. cbn [routecode trace_of with_trace Traced_join js_trace].
  rewrite C, T. reflexivity.
Qed.

Lemma empty_position_list_is_no_error_witness :
  locate_bus sample_builtins world_one_bus
    (fixed_provider (Returns (PList [])) (Returns (PList []))
       (Returns (PList [])) (Returns (PList [])))
    arrival_A10 (route_A10 []) (join_start [])
  = (Ok tt,
     {| js_trace := [EvCall (GetBusLocation "A10")];
        all_buses := [];
        errors := 0 |}).
Proof.
  exact (@empty_position_list_is_no_error sample_builtins world_one_bus
           (fixed_provider (Returns (PList [])) (Returns (PList []))
              (Returns (PList [])) (Returns (PList [])))
           arrival_A10 (route_A10 []) (PStr "A10") (PList [])
           (join_start []) eq_refl eq_refl eq_refl).
Defined.

(** X7. When the first entry of a non-empty position list has no CS_LAT, or
    one that [float] does not accept, no sighting is appended and exactly one
    error is counted and logged; the later entries of the list are not
    looked at. *)
Theorem unreadable_position_counts_error (B : Builtins) (W : World)
    (p : provider) (arrival bus_info rc first : pyval) (rest : list pyval)
    (e : exn) (j : join_state) :
  getitem_key arrival "route_code" = Ok rc ->
  p (js_trace j) (GetBusLocation (py_str B rc))
  = Returns (PList (first :: rest)) ->
  latitude_of B first = Raise e ->
  locate_bus B W p arrival bus_info j
  = (Ok tt,
     {| js_trace := EvLog ERROR (MsgErrorBusLocation rc e)
                    :: EvCall (GetBusLocation (py_str B rc)) :: js_trace j;
        all_buses := all_buses j;
        errors := errors j + 1 |}).
Proof.
  intros R C L. unfold locate_bus, try_except, bind, lift, request, ret.
  rewrite R. cbn [routecode trace_of with_trace Traced_join js_trace].
  rewrite C.
  cbn [py_truthy py_len getitem_index nth_item].
  replace (0 <? Z.of_nat (List.length (first :: rest))) with true
    by (symmetry; apply Z.ltb_lt; cbn [List.length]; lia).
  replace (nth_item (first :: rest) 0) with (Ok first : result pyval).
  - unfold latitude_of in L.
    destruct (getitem_key first "CS_LAT") as [x|e0].
    + rewrite L. reflexivity.
    + injection L as ->. reflexivity.
  - unfold nth_item. cbn [Z.ltb Z.compare].
    replace ((0 <? 0) || (Z.of_nat (List.length (first :: rest)) <=? 0))
      with false; [reflexivity|].
    symmetry. apply Bool.orb_false_iff. split; [reflexivity|].
    apply Z.leb_gt. cbn [List.length]. lia.
Qed.

Lemma unreadable_position_counts_error_witness :
  latitude_of sample_builtins (PDict [("CS_LAT", PStr "north")])
  = Raise ValueError /\
  locate_bus sample_builtins world_one_bus
    (fixed_provider (Returns (PList [])) (Returns (PList []))
       (Returns (PList []))
       (Returns (PList [PDict [("CS_LAT", PStr "north")]; position_V1])))
    arrival_A10 (route_A10 []) (join_start [])
  = (Ok tt,
     {| js_trace := [EvLog ERROR (MsgErrorBusLocation (PStr "A10") ValueError);
                     EvCall (GetBusLocation "A10")];
        all_buses := [];
        errors := 1 |}).
Proof.
  split; [reflexivity|].
  exact (@unreadable_position_counts_error sample_builtins world_one_bus
           (fixed_provider (Returns (PList [])) (Returns (PList []))
              (Returns (PList []))
              (Returns (PList [PDict [("CS_LAT", PStr "north")];
                               position_V1])))
           arrival_A10 (route_A10 []) (PStr "A10")
           (PDict [("CS_LAT", PStr "north")]) [position_V1] ValueError
           (join_start []) eq_refl eq_refl eq_refl).
Defined.

(** X8. When the route listing of the stop cannot be used for an arrival
    (the request raises, or it answers [None] or anything else that cannot
    be iterated), the arrival gives no sighting and counts as exactly one
    error, and the arrival loop goes on; unlike missing arrivals, a missing
    route listing is an error. *)
Theorem unusable_route_listing_counts_error (B : Builtins) (W : World)
    (p : provider) (stop_info sid : pyval) (stop : StopObj) (arrival : pyval)
    (e : exn) (j : join_state) :
  getitem_key stop_info "StopID" = Ok sid ->
  routes_unavailable p stop j e ->
  process_arrival B W p stop_info stop arrival j
  = (Ok tt,
     {| js_trace := EvLog ERROR (MsgErrorArrival sid e)
                    :: EvCall (WebRoutesForStop (stopcode stop))
                    :: js_trace j;
        all_buses := all_buses j;
        errors := errors j + 1 |}).
Proof.
  intros S U. unfold routes_unavailable in U.
  unfold process_arrival, try_except, bind, lift, request.
  cbn [py_str trace_of with_trace Traced_join js_trace].
  destruct (p (js_trace j) (WebRoutesForStop (stopcode stop))) as [routes|e'].
  - rewrite U, S. reflexivity.
  - subst e'. rewrite S. reflexivity.
Qed.

Lemma unusable_route_listing_counts_error_witness :
  routes_unavailable
    (fixed_provider (Returns (PList [])) (Returns (PList [arrival_A10]))
       (Returns PNone) (Returns (PList [position_V1])))
    (Stop "101") (join_start []) TypeError /\
  process_arrival sample_builtins world_one_bus
    (fixed_provider (Returns (PList [])) (Returns (PList [arrival_A10]))
       (Returns PNone) (Returns (PList [position_V1])))
    stop_101 (Stop "101") arrival_A10 (join_start [])
  = (Ok tt,
     {| js_trace := [EvLog ERROR (MsgErrorArrival (PStr "101") TypeError);
                     EvCall (WebRoutesForStop "101")];
        all_buses := [];
        errors := 1 |}).
Proof.
  split; [reflexivity|].
  exact (@unusable_route_listing_counts_error sample_builtins world_one_bus
           (fixed_provider (Returns (PList []))
              (Returns (PList [arrival_A10])) (Returns PNone)
              (Returns (PList [position_V1])))
           stop_101 (PStr "101") (Stop "101") arrival_A10 TypeError
           (join_start []) eq_refl eq_refl).
Defined.

(** * Further properties of the refresh loop *)

(** X9. [total_updates] counts the cycles: after [n] turns of the loop it
    is [n] more than before, the other two counters have not gone down, and
    together they have gone up by [n]. *)
Theorem total_updates_counts_cycles (B : Builtins) (W : World) (n : nat) :
  forall m,
    total_updates (stats (cache (after_cycles B W n m)))
    = total_updates (stats (cache m)) + Z.of_nat n /\
    successful_updates (stats (cache m))
    <= successful_updates (stats (cache (after_cycles B W n m))) /\
    failed_updates (stats (cache m))
    <= failed_updates (stats (cache (after_cycles B W n m))) /\
    successful_updates (stats (cache (after_cycles B W n m)))
    + failed_updates (stats (cache (after_cycles B W n m)))
    = successful_updates (stats (cache m)) + failed_updates (stats (cache m))
      + Z.of_nat n.
Proof.
  unfold after_cycles. induction n as [|n IH]; intros m.
  - cbn. lia.
  - rewrite update_cache_step.
    destruct (cycle_counters B W m) as (m' & E & T & C).
    rewrite E. cbn [snd]. specialize (IH m'). lia.
Qed.

(** X10. [get_stops] never invents stops and never hands on something
    without a length: for every provider and location it returns normally,
    and its result is the provider's answer to the one request it made, or
    the empty list; [len] accepts the result. *)
Theorem get_stops_result (W : World) (lat lng : pyval) (tr : list event) :
  exists v tr' k,
    get_stops W lat lng tr = (Ok v, tr') /\
    py_len v = Ok k /\
    (v = PList [] \/
     exists p,
       oasa W = Some p /\
       p (EvLog INFO (MsgFetchingStops lat lng) :: tr)
         (GetClosestStops lat lng) = Returns v /\
       tr' = EvLog INFO (MsgFoundStops k)
             :: EvCall (GetClosestStops lat lng)
             :: EvLog INFO (MsgFetchingStops lat lng) :: tr).
Proof.
  unfold get_stops. destruct (oasa W) as [p|].
  - unfold try_except, bind, logger_info, logger_error, emit, request,
      lift, ret.
    cbn [trace_of with_trace Traced_trace].
    destruct (p _ _) as [v|e] eqn:C.
    + destruct (py_len v) as [k|e] eqn:L.
      * exists v. eexists. exists k. split; [reflexivity|]. split; [exact L|].
        right. exists p. auto.
      * exists (PList []). eexists. exists 0. auto.
    + exists (PList []). eexists. exists 0. auto.
  - unfold bind, logger_error, emit, ret.
    exists (PList []). eexists. exists 0. auto.
Qed.

(** * Properties of the request handlers *)

Lemma cycle_keeps_stops_sized (B : Builtins) (W : World) (m : machine) :
  (exists k, py_len (stops (cache m)) = Ok k) ->
  exists k, py_len (stops (cache (snd (update_cycle B W m)))) = Ok k.
Proof.
  intros I.
  pose proof (update_cycle_run B W m) as R.
  destruct (pipeline_machine B W (cycle_entry m)) as (r & tr & E & _).
  rewrite E in R. destruct r as [[new_stops new_buses]|e].
  - destruct R as (n & L & R). rewrite R. cbn. eauto.
  - rewrite R. cbn. exact I.
Qed.

Lemma update_cache_keeps_stops_sized (B : Builtins) (W : World) (n : nat) :
  forall m,
    (exists k, py_len (stops (cache m)) = Ok k) ->
    exists k, py_len (stops (cache (after_cycles B W n m))) = Ok k.
Proof.
  unfold after_cycles. induction n as [|n IH]; intros m I.
  - exact I.
  - rewrite update_cache_step. apply IH, cycle_keeps_stops_sized, I.
Qed.

(** X11. On every cache the refresh loop produces from the initial one,
    [get_status] answers 200 and never takes its error path: the cached
    stops always have a length, and the body reports that length, the
    number of cached sightings, [last_update] and the counters. *)
Theorem status_always_answers (B : Builtins) (W : World) (n : nat)
    (server_time : string) (st : app_state) :
  exists k,
    py_len (stops (cache (after_cycles B W n machine_init))) = Ok k /\
    Api.get_status (cache (after_cycles B W n machine_init)) server_time st
    = (Ok (jsonify
             (PDict
                [("status", PStr "online");
                 ("last_update",
                  PFloat (FFin (last_update
                                  (cache (after_cycles B W n machine_init)))));
                 ("stops_count", PInt k);
                 ("buses_count",
                  PInt (Z.of_nat
                          (List.length
                             (buses (cache (after_cycles B W n
                                              machine_init))))));
                 ("stats",
                  stats_json (stats (cache (after_cycles B W n
                                              machine_init))));
                 ("server_time", PStr server_time)])),
       st).
Proof.
  destruct (update_cache_keeps_stops_sized B W n machine_init) as (k & L).
  { exists 0. reflexivity. }
  exists k. split; [exact L|].
  unfold Api.get_status, try_except, bind, lift, ret. rewrite L. reflexivity.
Qed.

(** X12. [get_route_details] never raises and tells failure from an empty
    result: it answers 200 exactly when there is a client and both provider
    requests return, with what they returned in the body, empty or not;
    otherwise it answers 500 with a body that holds only an error text.  When
    the route-detail request raises, the bus location is not asked for. *)
Theorem route_details_answers (client : option api_provider)
    (route_code : string) (st : app_state) :
  exists r st',
    Api.get_route_details client route_code st = (Ok r, st') /\
    settings_file st' = settings_file st /\
    ((status r = 200 /\
      exists p route_stops bus_location,
        client = Some p /\
        p (api_trace st) (ApiRouteDetail route_code) = Returns route_stops /\
        p (ApiCall (ApiRouteDetail route_code) :: api_trace st)
          (ApiBusLocation route_code) = Returns bus_location /\
        body r = PDict [("route_code", PStr route_code);
                        ("route_stops", route_stops);
                        ("bus_location", bus_location)])
     \/
     (status r = 500 /\
      (exists msg, body r = PDict [("error", PStr msg)]) /\
      (client = None /\ api_trace st' = api_trace st
       \/
       (exists p e,
          client = Some p /\
          p (api_trace st) (ApiRouteDetail route_code) = Raises e /\
          api_trace st'
          = ApiLog (ApiErrorRouteDetails route_code e)
            :: ApiCall (ApiRouteDetail route_code) :: api_trace st)
       \/
       (exists p route_stops e,
          client = Some p /\
          p (api_trace st) (ApiRouteDetail route_code) = Returns route_stops /\
          p (ApiCall (ApiRouteDetail route_code) :: api_trace st)
            (ApiBusLocation route_code) = Raises e)))).
Proof.
  unfold Api.get_route_details, try_except, bind, ret, api_request, api_log.
  destruct client as [p|]; cbn [routecode api_trace settings_file].
  - destruct (p (api_trace st) (ApiRouteDetail route_code))
      as [route_stops|e] eqn:C1; cbn [api_trace settings_file].
    + destruct (p (ApiCall (ApiRouteDetail route_code) :: api_trace st)
                  (ApiBusLocation route_code)) as [bus_location|e] eqn:C2;
        cbn [api_trace settings_file].
      * do 2 eexists. split; [reflexivity|]. split; [reflexivity|].
        left. split; [reflexivity|]. exists p, route_stops, bus_location.
        auto.
      * do 2 eexists. split; [reflexivity|]. split; [reflexivity|].
        right. split; [reflexivity|]. split; [eexists; reflexivity|].
        right. right. exists p, route_stops, e. auto.
    + do 2 eexists. split; [reflexivity|]. split; [reflexivity|].
      right. split; [reflexivity|]. split; [eexists; reflexivity|].
      right. left. exists p, e. auto.
  - do 2 eexists. split; [reflexivity|]. split; [reflexivity|].
    right. split; [reflexivity|]. split; [eexists; reflexivity|].
    left. auto.
Qed.

(** X13. [get_settings] always answers 200, whatever the state of
    [settings.json] and of the disk: with the content of the file when it
    exists and parses, with the default settings otherwise.  A file that
    exists is never written, be it readable or not. *)
Theorem settings_always_answers (d : disk) (st : app_state) :
  exists r st',
    Api.get_settings d st = (Ok r, st') /\
    status r = 200 /\
    match settings_file st with
    | Some (FileJson v) => body r = v /\ st' = st
    | Some (FileBroken e) =>
        body r = default_settings /\
        settings_file st' = settings_file st
    | None => body r = default_settings
    end.
Proof.
  unfold Api.get_settings, try_except, bind, lift, ret, write_settings,
    api_log.
  destruct st as [[[v|e]|] tr]; cbn [settings_file api_trace json_load].
  - do 2 eexists. repeat split; reflexivity.
  - do 2 eexists. repeat split; reflexivity.
  - destruct d as [|e remains]; do 2 eexists; repeat split; reflexivity.
Qed.

(** X14. The first call of [get_settings] without a settings file, on a
    disk that can be written, creates the file with the default settings;
    every later call returns these settings from the file and changes
    nothing, whatever the disk does. *)
Theorem settings_persist (d : disk) (st : app_state) :
  settings_file st = None ->
  Api.get_settings WriteOk st
  = (Ok (jsonify default_settings),
     {| settings_file := Some (FileJson default_settings);
        api_trace := api_trace st |}) /\
  Api.get_settings d (snd (Api.get_settings WriteOk st))
  = (Ok (jsonify default_settings), snd (Api.get_settings WriteOk st)).
Proof.
  intros N.
  unfold Api.get_settings, try_except, bind, lift, ret, write_settings.
  rewrite N. cbn. split; reflexivity.
Qed.

Lemma settings_persist_witness :
  settings_file app_init = None /\
  Api.get_settings (WriteFails (ProviderError "disk full") None)
    (snd (Api.get_settings WriteOk app_init))
  = (Ok (jsonify default_settings),
     {| settings_file := Some (FileJson default_settings);
        api_trace := [] |}).
Proof.
  split; [reflexivity|].
  exact (proj2 (@settings_persist
                  (WriteFails (ProviderError "disk full") None) app_init
                  eq_refl)).
Defined.

(** * Readers during a publication *)

Section FieldByField.
Variable c : Cache.
Variable new_stops : pyval.
Variable new_buses : list pyval.
Variable t : Q.

Lemma step_keeps_between (th : thread) (k k' : config) :
  between c new_stops new_buses t k -> step th k = Some k' ->
  between c new_stops new_buses t k'.
Proof.
  intros (S & Bu & L & O & Ws) E. destruct th; cbn in E.
  - destruct (to_write k) as [|w ws] eqn:Tw; [discriminate|].
    injection E as <-. inversion Ws as [|? ? Pw Pws]; subst.
    unfold between; cbn [shared observed to_write].
    destruct w; cbn in Pw |- *; subst; repeat split; auto.
  - destruct (to_read k) as [|r rs] eqn:Tr; [discriminate|].
    injection E as <-. unfold between; cbn [shared observed to_write].
    repeat split; auto. apply Forall_app. split; [exact O|].
    constructor; [|constructor]. destruct r; cbn; auto.
Qed.

Lemma run_keeps_between (schedule : list thread) :
  forall k k',
    between c new_stops new_buses t k -> run schedule k = Some k' ->
    between c new_stops new_buses t k'.
Proof.
  induction schedule as [|th schedule IH]; intros k k' I E; cbn in E.
  - injection E as <-. exact I.
  - destruct (step th k) as [k1|] eqn:S1; [|discriminate].
    eapply IH; [|exact E]. eapply step_keeps_between; eauto.
Qed.
End FieldByField.

(** X15. However a handler's reads are interleaved with a publication, each
    value it reads of stops, buses and last_update is that field's value
    before the publication or the value the publication assigns: a torn
    read mixes old and new fields, but never shows any other value. *)
Theorem reader_sees_old_or_new_fields (c : Cache) (new_stops : pyval)
    (new_buses : list pyval) (t : Q) (u : Z) (rs : list read)
    (schedule : list thread) (k : config) :
  run schedule (racing c (publish_writes new_stops new_buses t u) rs)
  = Some k ->
  Forall (old_or_new c new_stops new_buses t) (observed k).
Proof.
  intros E.
  assert (I : between c new_stops new_buses t
                (racing c (publish_writes new_stops new_buses t u) rs)).
  { unfold between, racing, publish_writes; cbn.
    repeat split; auto. repeat constructor. }
  destruct (run_keeps_between schedule I E) as (_ & _ & _ & O & _).
  exact O.
Qed.

Lemma reader_sees_old_or_new_fields_witness :
  exists k,
    run [Writer; Reader; Reader; Reader; Reader; Reader; Reader; Reader;
         Writer; Writer; Writer; Writer]
      (racing cache_init (publish_writes (PList [stop_101]) [bus_A10] 7%Q 7)
         get_status) = Some k /\
    Forall (old_or_new cache_init (PList [stop_101]) [bus_A10] 7%Q)
      (observed k).
Proof.
  eexists. split; [vm_compute; reflexivity|].
  eapply (@reader_sees_old_or_new_fields cache_init (PList [stop_101])
            [bus_A10] 7%Q 7 get_status
            [Writer; Reader; Reader; Reader; Reader; Reader; Reader; Reader;
             Writer; Writer; Writer; Writer]).
  vm_compute. reflexivity.
Defined.
